(** * pf-process-statements: CAMT.053 triage and import into Odoo

    A shallow embedding of [pf-process-statements.py].  Pure helpers
    (string tests, ElementTree queries, base64) are Rocq functions;
    the workflows run in a small monad that threads the state of the
    remote system, can raise a Python exception, and records the
    observable events (prints, logging calls, file accesses and XML-RPC
    calls) they perform.

    The things the script only uses through a library are parameters:
    the file system is a static environment ([os_listdir],
    [read_binary]), the expat parser behind [ET.parse] is a function
    from bytes to a tree or an exception, and the remote system is an
    arbitrary state machine answering XML-RPC calls. *)

From Stdlib Require Import List String Ascii Bool Arith NArith ZArith Lia.
From Stdlib.Strings Require Import Byte.
Import ListNotations.
Open Scope string_scope.

Set Implicit Arguments.
Set Warnings "-register-all".

(* ================================================================== *)
(** ** Python [str] operations used by the script

    A character is a code point below 256 ([ascii]); the functions
    follow [str.lower], [str.startswith], [str.endswith] and
    [str.strip] on that range. *)

Module PyStr.

Definition chars (s : string) : list ascii := list_ascii_of_string s.
Definition of_chars (l : list ascii) : string := string_of_list_ascii l.

(** [c.lower()]: A-Z and the Latin-1 capitals (all of 0xC0-0xDE but
    the multiplication sign 0xD7) move up by 32. *)
Definition lower_char (c : ascii) : ascii :=
  let n := nat_of_ascii c in
  if (((65 <=? n) && (n <=? 90)) ||
      ((192 <=? n) && (n <=? 222) && negb (n =? 215)))%nat
  then ascii_of_nat (n + 32) else c.

Definition lower (s : string) : string :=
  of_chars (map lower_char (chars s)).

Fixpoint starts (p l : list ascii) : bool :=
  match p, l with
  | [], _ => true
  | _ :: _, [] => false
  | a :: p', b :: l' => Ascii.eqb a b && starts p' l'
  end.

Definition startswith (s p : string) : bool := starts (chars p) (chars s).

Definition endswith (s p : string) : bool :=
  starts (rev (chars p)) (rev (chars s)).

(** [c.isspace()] for code points below 256. *)
Definition isspace (c : ascii) : bool :=
  let n := nat_of_ascii c in
  (((9 <=? n) && (n <=? 13)) || ((28 <=? n) && (n <=? 32)) ||
   (n =? 133) || (n =? 160))%nat.

Fixpoint lstrip (l : list ascii) : list ascii :=
  match l with
  | c :: l' => if isspace c then lstrip l' else l
  | [] => []
  end.

Definition strip (s : string) : string :=
  of_chars (rev (lstrip (rev (lstrip (chars s))))).

(** Truth value of a [str]: non-empty. *)
Definition nonempty (s : string) : bool :=
  match s with EmptyString => false | _ => true end.

End PyStr.

(** [os.path.join(a, b)] on POSIX, for two components. *)
Definition os_path_join (a b : string) : string :=
  if PyStr.startswith b "/" then b
  else if negb (PyStr.nonempty a) || PyStr.endswith a "/" then a ++ b
  else a ++ "/" ++ b.

(* ================================================================== *)
(** ** ElementTree *)

(** An [Element]: its tag (in Clark notation, [{uri}local]), its text
    ([None] when the element has none) and its children in document
    order.  Attributes and tails are not read by the script. *)
Inductive Element : Type :=
  Elem (tag : string) (text : option string) (children : list Element).

Definition tag (e : Element) : string := let 'Elem t _ _ := e in t.
Definition text (e : Element) : option string := let 'Elem _ x _ := e in x.
Definition children (e : Element) : list Element := let 'Elem _ _ c := e in c.

Module ET.

(** [elem.iter()]: the element and all its descendants, in document
    order. *)
Fixpoint iter (e : Element) : list Element :=
  match e with
  | Elem _ _ cs =>
      e :: (fix over (l : list Element) : list Element :=
              match l with
              | [] => []
              | c :: l' => (iter c ++ over l')%list
              end) cs
  end.

(** The [.//tag] step of ElementPath: for [e in elem.iter(tag)],
    every [e] that [is not elem]. *)
Definition descendants (e : Element) : list Element :=
  flat_map iter (children e).

Definition has_tag (t : string) (e : Element) : bool := String.eqb (tag e) t.

Definition select_descendant (t : string) (ctx : list Element) : list Element :=
  flat_map (fun e => filter (has_tag t) (descendants e)) ctx.

(** The [/tag] step: the direct children carrying the tag. *)
Definition select_child (t : string) (ctx : list Element) : list Element :=
  flat_map (fun e => filter (has_tag t) (children e)) ctx.

End ET.

Definition camt_ns : string := "urn:iso:std:iso:20022:tech:xsd:camt.053.001.04".

(** [ns:local] under [ns = {'ns': camt_ns}], as ElementPath expands it. *)
Definition qname (local : string) : string := "{" ++ camt_ns ++ "}" ++ local.

(** [root.findall(".//ns:Ntry", ns)] *)
Definition findall_Ntry (root : Element) : list Element :=
  ET.select_descendant (qname "Ntry") [root].

(** [root.find(".//ns:Stmt/ns:Id", namespaces=ns)]: the first match. *)
Definition find_Stmt_Id (root : Element) : option Element :=
  hd_error (ET.select_child (qname "Id")
              (ET.select_descendant (qname "Stmt") [root])).

(** The number of elements of a document that carry a tag, the root
    included; this is the specification's notion of "contains", by
    recursion on the tree. *)
Fixpoint count_tag (t : string) (e : Element) : nat :=
  match e with
  | Elem g _ cs =>
      (if String.eqb g t then 1 else 0) +
      (fix sum (l : list Element) : nat :=
         match l with
         | [] => 0
         | c :: l' => count_tag t c + sum l'
         end) cs
  end.

(* ================================================================== *)
(** ** [base64.b64encode] *)

Module Base64.

Definition alphabet : string :=
  "ABCDEFGHIJKLMNOPQRSTUVWXYZabcdefghijklmnopqrstuvwxyz0123456789+/".

Definition digit (n : N) : ascii :=
  match String.get (N.to_nat (N.land n 63)) alphabet with
  | Some c => c
  | None => "="%char
  end.

(** Three bytes make four digits; one or two trailing bytes are
    padded with [=]. *)
Fixpoint b64encode (bs : list byte) : string :=
  match bs with
  | [] => ""
  | [a] =>
      let n := N.shiftl (Byte.to_N a) 16 in
      String (digit (N.shiftr n 18)) (String (digit (N.shiftr n 12)) "==")
  | [a; b] =>
      let n := N.lor (N.shiftl (Byte.to_N a) 16) (N.shiftl (Byte.to_N b) 8) in
      String (digit (N.shiftr n 18)) (String (digit (N.shiftr n 12))
        (String (digit (N.shiftr n 6)) "="))
  | a :: b :: c :: rest =>
      let n := N.lor (N.lor (N.shiftl (Byte.to_N a) 16)
                            (N.shiftl (Byte.to_N b) 8)) (Byte.to_N c) in
      String (digit (N.shiftr n 18)) (String (digit (N.shiftr n 12))
        (String (digit (N.shiftr n 6)) (String (digit n)
          (b64encode rest))))
  end.

End Base64.

(* ================================================================== *)
(** ** Python values, exceptions and observable events *)

(** The values that travel over XML-RPC, with [None] for an option the
    command line did not give. *)
Inductive XValue : Type :=
| XNone
| XBool (b : bool)
| XInt (z : Z)
| XStr (s : string)
| XList (items : list XValue)
| XStruct (members : list (string * XValue)).

(** Truth value testing, as in [if uid:] and [if existing_statement:]. *)
Definition truthy (v : XValue) : bool :=
  match v with
  | XNone => false
  | XBool b => b
  | XInt z => negb (z =? 0)%Z
  | XStr s => PyStr.nonempty s
  | XList [] => false
  | XList (_ :: _) => true
  | XStruct [] => false
  | XStruct (_ :: _) => true
  end.

(** The classes of exception the script can meet; all of them derive
    from [Exception]. *)
Inductive ExnClass : Type :=
| ParseError          (* xml.etree.ElementTree.ParseError *)
| OSError             (* FileNotFoundError, NotADirectoryError, ... *)
| UnicodeDecodeError
| Fault               (* xmlrpc.client.Fault *)
| ProtocolError       (* xmlrpc.client.ProtocolError *)
| OtherException.

Record PyExn : Type := Exn { exn_class : ExnClass; exn_msg : string }.

Definition is_ParseError (e : PyExn) : bool :=
  match exn_class e with ParseError => true | _ => false end.

(** [except Exception]: every modelled class is caught. *)
Definition is_Exception (e : PyExn) : bool := true.

Inductive Result (A : Type) : Type :=
| Ok (a : A)
| Raise (e : PyExn).
Arguments Ok {A} a.
Arguments Raise {A} e.

(** A command-line option: its string, or [None] when it was not given. *)
Definition Opt : Type := option string.

Definition xval (o : Opt) : XValue :=
  match o with Some s => XStr s | None => XNone end.

(** [f"{o}"] *)
Definition fstr (o : Opt) : string :=
  match o with Some s => s | None => "None" end.

Inductive Level : Type := DEBUG | INFO | ERROR.

(** A formatted message: the f-string of the source and the values
    substituted into it, in order. *)
Inductive Field : Type :=
| FStr (s : string)
| FVal (v : XValue)
| FExn (e : PyExn).

Record Message : Type := Msg { template : string; fields : list Field }.

(** One XML-RPC request: the proxy's URI, the method and its positional
    parameters. *)
Record RpcCall : Type :=
  Call { endpoint : string; method : string; params : list XValue }.

Inductive Event : Type :=
| EvPrint (m : Message)                      (* print(...) *)
| EvLog (lvl : Level) (m : Message)          (* logging.debug/info/error/exception *)
| EvListdir (directory : string)             (* os.listdir *)
| EvParse (path : string)                    (* ET.parse(path) reads the file *)
| EvOpen (path mode : string)                (* open(path, mode) *)
| EvRpc (c : RpcCall) (reply : Result XValue).

(* ================================================================== *)
(** ** The environment of a run *)

(** The file system does not change during a run; the remote system is
    a state machine.  A [ServerProxy] is built from the same base URL
    right before its first call and building it only checks the URL
    scheme, so a failure to build it is a fault of that call. *)
Class World : Type := {
  Remote : Type;
  rpc : RpcCall -> Remote -> Result XValue * Remote;
  os_listdir : string -> Result (list string);
  read_binary : string -> Result (list byte);
  (** the parser fed with the bytes of a file, as [ET.parse(path)] does *)
  XMLParser : list byte -> Result Element;
  (** the parser fed with the file decoded as UTF-8 text *)
  XMLParser_utf8 : list byte -> Result Element
}.

(* ================================================================== *)
(** ** The monad of the workflows *)

Definition M `{World} (A : Type) : Type :=
  Remote -> Result A * Remote * list Event.

Section Monad.
Context `{World}.

Definition ret {A} (a : A) : M A := fun r => (Ok a, r, []).

Definition raise {A} (e : PyExn) : M A := fun r => (Raise e, r, []).

Definition bind {A B} (m : M A) (k : A -> M B) : M B :=
  fun r =>
    match m r with
    | (Ok a, r1, t1) => let '(x, r2, t2) := k a r1 in (x, r2, (t1 ++ t2)%list)
    | (Raise e, r1, t1) => (Raise e, r1, t1)
    end.

Definition emit (ev : Event) : M unit := fun r => (Ok tt, r, [ev]).

Definition lift {A} (x : Result A) : M A := fun r => (x, r, []).

(** [try: m except C as e: h e], where [catches] tells the instances
    of [C]. *)
Definition try_except {A} (m : M A) (catches : PyExn -> bool)
           (h : PyExn -> M A) : M A :=
  fun r =>
    match m r with
    | (Ok a, r1, t1) => (Ok a, r1, t1)
    | (Raise e, r1, t1) =>
        if catches e
        then let '(x, r2, t2) := h e r1 in (x, r2, (t1 ++ t2)%list)
        else (Raise e, r1, t1)
    end.

(** A remote call; the request is recorded with its reply. *)
Definition call (c : RpcCall) : M XValue :=
  fun r => let '(x, r1) := rpc c r in (x, r1, [EvRpc c x]).

End Monad.

Notation "x <- m ;; k" := (bind m (fun x => k))
  (at level 61, m at next level, right associativity).
Notation "m ;; k" := (bind m (fun _ => k))
  (at level 61, right associativity).

Definition result_of `{World} {A} (x : Result A * Remote * list Event) : Result A :=
  fst (fst x).
Definition remote_of `{World} {A} (x : Result A * Remote * list Event) : Remote :=
  snd (fst x).
Definition trace_of `{World} {A} (x : Result A * Remote * list Event) : list Event :=
  snd x.

(* ================================================================== *)
(** ** The script *)

Section Script.
Context `{World}.

Definition logging (lvl : Level) (tpl : string) (fs : list Field) : M unit :=
  emit (EvLog lvl (Msg tpl fs)).

Definition print (tpl : string) (fs : list Field) : M unit :=
  emit (EvPrint (Msg tpl fs)).

(** [for x in l: body x] *)
Fixpoint for_each {A} (l : list A) (body : A -> M unit) : M unit :=
  match l with
  | [] => ret tt
  | x :: l' => body x ;; for_each l' body
  end.

(** [os.listdir(directory)] *)
Definition listdir (directory : string) : M (list string) :=
  emit (EvListdir directory) ;; lift (os_listdir directory).

(** [ET.parse(file_path).getroot()]: the file is read as bytes and fed
    to the parser. *)
Definition ET_parse_path (file_path : string) : M Element :=
  emit (EvParse file_path) ;;
  data <- lift (read_binary file_path) ;;
  lift (XMLParser data).

(** [with open(file_path, "r", encoding="utf-8") as file:
       ET.parse(file).getroot()] *)
Definition ET_parse_text (file_path : string) : M Element :=
  emit (EvOpen file_path "r") ;;
  data <- lift (read_binary file_path) ;;
  lift (XMLParser_utf8 data).

(** [setup_logging]: the level only decides which records are shown;
    every logging call is recorded with its level. *)
Definition setup_logging (debug_mode : bool) : M unit :=
  logging DEBUG "Logging setup complete. Debug mode is active." [].

(** [common.authenticate(db, username, password, {})] on
    [ServerProxy(f"{url}/xmlrpc/2/common")] *)
Definition authenticate_call (url db username password : Opt) : RpcCall :=
  Call (fstr url ++ "/xmlrpc/2/common") "authenticate"
       [xval db; xval username; xval password; XStruct []].

(** [models.execute_kw(db, uid, password, model, meth, args)] on
    [ServerProxy(f"{url}/xmlrpc/2/object")] *)
Definition execute_kw_call (url db : Opt) (uid : XValue) (password : Opt)
           (model meth : string) (args : list XValue) : RpcCall :=
  Call (fstr url ++ "/xmlrpc/2/object") "execute_kw"
       [xval db; uid; xval password; XStr model; XStr meth; XList args].

Definition validate_odoo_connection (url db username password : Opt)
  : M (option XValue) :=
  logging DEBUG "Validating connection to Odoo: {url}, DB: {db}, User: {username}"
          [FVal (xval url); FVal (xval db); FVal (xval username)] ;;
  try_except
    (uid <- call (authenticate_call url db username password) ;;
     if truthy uid then
       logging DEBUG "Connection successful. User ID: {uid}" [FVal uid] ;;
       print "Connection successful: User ID {uid}" [FVal uid] ;;
       ret (Some uid)
     else
       logging ERROR "Authentication failed." [] ;;
       print "Authentication failed." [] ;;
       ret None)
    is_Exception
    (fun e =>
       logging ERROR "Error connecting to Odoo:" [FExn e] ;;
       ret None).

Definition is_blank_camt053 (file_path : string) : M bool :=
  logging DEBUG "Checking file for blank status: {file_path}" [FStr file_path] ;;
  try_except
    (root <- ET_parse_path file_path ;;
     let entries := findall_Ntry root in
     match entries with
     | [] =>
         logging DEBUG "File is blank: {file_path}" [FStr file_path] ;;
         ret true
     | _ :: _ =>
         logging DEBUG "File has transactions: {file_path}" [FStr file_path] ;;
         ret false
     end)
    is_ParseError
    (fun e =>
       logging ERROR "Error parsing XML file {file_path}: {e}"
               [FStr file_path; FExn e] ;;
       ret false).

(** The filename test of the blank-detection loop; [true] when the file
    is inspected. *)
Definition is_camt053_name (file_name : string) : bool :=
  negb (negb (PyStr.startswith (PyStr.lower file_name) "camt.053")
        || negb (PyStr.endswith file_name ".xml")).

Definition process_directory_for_blanks (directory : string) : M unit :=
  logging DEBUG "Processing directory for blank files: {directory}"
          [FStr directory] ;;
  names <- listdir directory ;;
  for_each names (fun file_name =>
    let file_path := os_path_join directory file_name in
    logging DEBUG "Inspecting file: {file_name}" [FStr file_name] ;;
    if negb (PyStr.startswith (PyStr.lower file_name) "camt.053")
       || negb (PyStr.endswith file_name ".xml")
    then logging DEBUG "Skipping non-CAMT.053 file: {file_name}" [FStr file_name]
    else
      blank <- is_blank_camt053 file_path ;;
      if blank then
        print "Blank file detected: {file_name}" [FStr file_name] ;;
        logging INFO "Blank file: {file_name}" [FStr file_name]
      else ret tt).

(** [if debug: logging.debug(...)] *)
Definition debug_log (debug : bool) (tpl : string) (fs : list Field) : M unit :=
  if debug then logging DEBUG tpl fs else ret tt.

(** Lines 142-154, "Extract the statement ID": [Some stmt_id] when the
    loop goes on with [stmt_id], [None] when it [continue]s. *)
Definition extract_statement_id (file_name file_path : string)
  : M (option string) :=
  try_except
    (root <- ET_parse_text file_path ;;
     let stmt_id_node := find_Stmt_Id root in
     match stmt_id_node with
     | None =>
         logging ERROR "Could not extract statement ID from file: {file_name}"
                 [FStr file_name] ;;
         ret None
     | Some node =>
         match text node with
         | None | Some EmptyString =>
             logging ERROR "Could not extract statement ID from file: {file_name}"
                     [FStr file_name] ;;
             ret None
         | Some txt => ret (Some (PyStr.strip txt))
         end
     end)
    is_Exception
    (fun e =>
       logging ERROR "Error extracting statement ID from file {file_name}: {e}"
               [FStr file_name; FExn e] ;;
       ret None).

Definition search_call (url db : Opt) (uid : XValue) (password : Opt)
           (stmt_id : string) : RpcCall :=
  execute_kw_call url db uid password "account.bank.statement" "search"
    [XList [XList [XStr "name"; XStr "="; XStr stmt_id]]].

Definition create_call (url db : Opt) (uid : XValue) (password : Opt)
           (file_name encoded_file : string) : RpcCall :=
  execute_kw_call url db uid password "account.statement.import" "create"
    [XStruct [("statement_filename", XStr file_name);
              ("statement_file", XStr encoded_file)]].

Definition import_call (url db : Opt) (uid : XValue) (password : Opt)
           (statement_id : XValue) : RpcCall :=
  execute_kw_call url db uid password "account.statement.import"
    "import_file_button" [XList [statement_id]].

(** Lines 159-174, "Check if statement already exists in Odoo": [true]
    when the loop [continue]s (a match was found, or the check
    failed), [false] when it goes on to the upload. *)
Definition check_existing (url db : Opt) (uid : XValue) (password : Opt)
           (file_name stmt_id : string) : M bool :=
  try_except
    (existing_statement <- call (search_call url db uid password stmt_id) ;;
     if truthy existing_statement then
       logging INFO
         "Statement with ID {stmt_id} already exists in Odoo. Skipping file: {file_name}"
         [FStr stmt_id; FStr file_name] ;;
       ret true
     else ret false)
    is_Exception
    (fun e =>
       logging ERROR "Error checking statement existence in Odoo for {stmt_id}: {e}"
               [FStr stmt_id; FExn e] ;;
       ret true).

(** Lines 176-199, "Upload the file to Odoo". *)
Definition upload_and_import (url db : Opt) (uid : XValue) (password : Opt)
           (file_name file_path : string) : M unit :=
  try_except
    (emit (EvOpen file_path "rb") ;;
     file_data <- lift (read_binary file_path) ;;
     let encoded_file := Base64.b64encode file_data in
     statement_id <- call (create_call url db uid password file_name encoded_file) ;;
     call (import_call url db uid password statement_id) ;;
     logging INFO "Successfully uploaded file: {file_name} to Odoo." [FStr file_name])
    is_Exception
    (fun e =>
       logging ERROR "Error uploading file {file_name} to Odoo: {e}"
               [FStr file_name; FExn e]).

(** The body of the loop of [process_directory]. *)
Definition process_file (directory : string) (url db : Opt) (uid : XValue)
           (password : Opt) (debug : bool) (file_name : string) : M unit :=
  let file_path := os_path_join directory file_name in
  if negb (PyStr.endswith file_name ".xml") then
    debug_log debug "Skipping non-XML file: {file_name}" [FStr file_name]
  else
    debug_log debug "Inspecting file: {file_name}" [FStr file_name] ;;
    blank <- is_blank_camt053 file_path ;;
    if blank then
      logging INFO "Skipping blank file: {file_name}" [FStr file_name]
    else
      found <- extract_statement_id file_name file_path ;;
      match found with
      | None => ret tt
      | Some stmt_id =>
          debug_log debug "Extracted statement ID: {stmt_id} from file: {file_name}"
                    [FStr stmt_id; FStr file_name] ;;
          skip <- check_existing url db uid password file_name stmt_id ;;
          if skip then ret tt
          else upload_and_import url db uid password file_name file_path
      end.

Definition process_directory (directory : string)
           (odoo_url db username password : Opt) (debug : bool) : M unit :=
  debug_log debug "Processing directory: {directory}" [FStr directory] ;;
  uid <- call (authenticate_call odoo_url db username password) ;;
  names <- listdir directory ;;
  for_each names (process_file directory odoo_url db uid password debug).

Record Args : Type := {
  directory : string;
  odoo_url : Opt;
  db : Opt;
  username : Opt;
  password : Opt;
  test_connection : bool;
  blank : bool;
  debug : bool
}.

(** [main], after [parser.parse_args()]. *)
Definition main (args : Args) : M unit :=
  setup_logging (debug args) ;;
  if blank args then
    logging DEBUG "--blank flag detected. Skipping database connection." [] ;;
    process_directory_for_blanks (directory args)
  else
    connection_valid <-
      validate_odoo_connection (odoo_url args) (db args) (username args)
                               (password args) ;;
    match connection_valid with
    | None => print "Failed to connect to Odoo. Exiting." []
    | Some _ =>
        process_directory (directory args) (odoo_url args) (db args)
                          (username args) (password args) (debug args)
    end.

End Script.

(* ================================================================== *)
(** ** Observations on traces *)

(** The event reads a file. *)
Definition reads_file (ev : Event) : bool :=
  match ev with EvParse _ | EvOpen _ _ => true | _ => false end.

Definition no_file_read (t : list Event) : bool :=
  forallb (fun ev => negb (reads_file ev)) t.

(** The event reads a file or lists a directory. *)
Definition touches_files (ev : Event) : bool :=
  match ev with EvParse _ | EvOpen _ _ | EvListdir _ => true | _ => false end.

(** The requests of a trace, in order. *)
Definition rpc_calls (t : list Event) : list RpcCall :=
  flat_map (fun ev => match ev with EvRpc c _ => [c] | _ => [] end) t.

(** No file of the directory, nor the directory itself, was accessed. *)
Definition no_file_touched (t : list Event) : bool :=
  forallb (fun ev => negb (touches_files ev)) t.

(** The paths handed to [ET.parse(file_path)] by the blankness check,
    in order: the files whose processing was begun. *)
Definition parsed (t : list Event) : list string :=
  flat_map (fun ev => match ev with EvParse p => [p] | _ => [] end) t.

(** Within the processing of one file (it begins at its [EvParse]) no
    remote call follows a faulting one; [faulted] tells whether a call
    of the current file has faulted already. *)
Fixpoint fault_ends_file (faulted : bool) (t : list Event) : bool :=
  match t with
  | [] => true
  | EvParse _ :: rest => fault_ends_file false rest
  | EvRpc _ reply :: rest =>
      negb faulted &&
      fault_ends_file (match reply with Raise _ => true | Ok _ => false end) rest
  | _ :: rest => fault_ends_file faulted rest
  end.

(** The model method and the arguments of an [execute_kw] request. *)
Definition kw_method (c : RpcCall) : option (string * string) :=
  match params c with
  | [_; _; _; XStr model; XStr meth; _] =>
      if String.eqb (method c) "execute_kw" then Some (model, meth) else None
  | _ => None
  end.

Definition kw_uid (c : RpcCall) : option XValue :=
  match params c with
  | [_; uid; _; _; _; _] =>
      if String.eqb (method c) "execute_kw" then Some uid else None
  | _ => None
  end.

Definition is_create (c : RpcCall) : bool :=
  match kw_method c with
  | Some (model, meth) =>
      String.eqb model "account.statement.import" && String.eqb meth "create"
  | None => false
  end.

Definition is_import_trigger (c : RpcCall) : bool :=
  match kw_method c with
  | Some (model, meth) =>
      String.eqb model "account.statement.import" &&
      String.eqb meth "import_file_button"
  | None => false
  end.

(** The file name a [create] request stages. *)
Definition created_filename (c : RpcCall) : option string :=
  if is_create c then
    match params c with
    | [_; _; _; _; _; XList [XStruct (("statement_filename"%string, XStr f) :: _)]] =>
        Some f
    | _ => None
    end
  else None.

(** How many import records a trace creates for a file. *)
Definition creates_for (file_name : string) (t : list Event) : nat :=
  List.length (filter (fun c => match created_filename c with
                           | Some f => String.eqb f file_name
                           | None => false
                           end) (rpc_calls t)).

(** No import record is created and no import is triggered. *)
Definition stages_nothing (t : list Event) : bool :=
  forallb (fun c => negb (is_create c || is_import_trigger c)) (rpc_calls t).

(** Every faulting remote call is directly followed by an error record. *)
Fixpoint faults_logged (t : list Event) : bool :=
  match t with
  | [] => true
  | EvRpc _ (Raise _) :: rest =>
      match rest with
      | EvLog ERROR _ :: _ => faults_logged rest
      | _ => false
      end
  | _ :: rest => faults_logged rest
  end.

(** A listed file can be read and is XML, well-formed or not:
    [ET.parse(file_path)] returns a tree or raises [ParseError]. *)
Definition xml_or_malformed `{World} (file_path : string) : bool :=
  match read_binary file_path with
  | Ok data =>
      match XMLParser data with
      | Ok _ => true
      | Raise e => is_ParseError e
      end
  | Raise _ => false
  end.

(* ================================================================== *)
(** ** A small world to run the script in

    A directory tree with a few statements, a parser that knows these
    documents, and a remote system that stages uploads, names a bank
    statement after the uploaded document when the import is
    triggered, and can be told to fault. *)

Module Fixture.

Definition bytes (s : string) : list byte := list_byte_of_string s.

Definition el (local : string) (cs : list Element) : Element :=
  Elem (qname local) None cs.

Definition statement (id : option string) (entries : list Element) : Element :=
  el "Document" [el "BkToCstmrStmt"
    [el "Stmt" (Elem (qname "Id") id [] :: entries)]].

Definition entry : Element := el "Ntry" [el "Amt" []].

(** A blank statement, a statement with one entry, and one whose
    identifier is made of spaces. *)
Definition doc_A : Element := statement (Some "STMT-000") [].
Definition doc_B : Element := statement (Some "STMT-001") [entry].
Definition doc_W : Element := statement (Some "   ") [entry].

Definition xml_A : string :=
  "<Document xmlns='urn:iso:std:iso:20022:tech:xsd:camt.053.001.04'><BkToCstmrStmt><Stmt><Id>STMT-000</Id></Stmt></BkToCstmrStmt></Document>".
Definition xml_B : string :=
  "<Document xmlns='urn:iso:std:iso:20022:tech:xsd:camt.053.001.04'><BkToCstmrStmt><Stmt><Id>STMT-001</Id><Ntry><Amt/></Ntry></Stmt></BkToCstmrStmt></Document>".
Definition xml_W : string :=
  "<Document xmlns='urn:iso:std:iso:20022:tech:xsd:camt.053.001.04'><BkToCstmrStmt><Stmt><Id>   </Id><Ntry><Amt/></Ntry></Stmt></BkToCstmrStmt></Document>".
Definition xml_broken : string := "<Document><Stmt>".

Definition syntax_error : PyExn := Exn ParseError "no element found: line 1, column 16".

(** The parser, on the documents above; anything else is not
    well-formed. *)
Definition parser (data : list byte) : Result Element :=
  let s := string_of_list_byte data in
  if String.eqb s xml_A then Ok doc_A
  else if String.eqb s xml_B then Ok doc_B
  else if String.eqb s xml_W then Ok doc_W
  else Raise syntax_error.

Fixpoint lookup {A} (k : string) (l : list (string * A)) : option A :=
  match l with
  | [] => None
  | (k', v) :: l' => if String.eqb k k' then Some v else lookup k l'
  end.

Definition dirs : list (string * list string) :=
  [("/in/one", ["camt.053_B.xml"]);
   ("/in/two", ["camt.053_A.xml"; "camt.053_B.xml"]);
   ("/in/mix", ["notes.txt"; "broken.xml"; "camt.053_A.xml"; "camt.053_B.xml"]);
   ("/in/names", ["statement.xml"; "CAMT.053_2025.XML"; "CAMT.053_2025.xml"]);
   ("/in/ws", ["camt.053_W.xml"]);
   ("/in/sub", ["archive.xml"])].

Definition files : list (string * string) :=
  [("/in/one/camt.053_B.xml", xml_B);
   ("/in/two/camt.053_A.xml", xml_A);
   ("/in/two/camt.053_B.xml", xml_B);
   ("/in/mix/notes.txt", "remember the audit");
   ("/in/mix/broken.xml", xml_broken);
   ("/in/mix/camt.053_A.xml", xml_A);
   ("/in/mix/camt.053_B.xml", xml_B);
   ("/in/names/statement.xml", xml_A);
   ("/in/names/CAMT.053_2025.XML", xml_A);
   ("/in/names/CAMT.053_2025.xml", xml_A);
   ("/in/ws/camt.053_W.xml", xml_W)].

Definition fs_listdir (d : string) : Result (list string) :=
  match lookup d dirs with
  | Some names => Ok names
  | None => Raise (Exn OSError "No such file or directory")
  end.

(** [/in/sub/archive.xml] is a directory. *)
Definition fs_read (p : string) : Result (list byte) :=
  match lookup p files with
  | Some s => Ok (bytes s)
  | None =>
      if String.eqb p "/in/sub/archive.xml"
      then Raise (Exn OSError "Is a directory")
      else Raise (Exn OSError "No such file or directory")
  end.

(** The remote system: the names of its bank statements, the staged
    imports (identifier, file name, payload) and the number of
    authentications so far. *)
Record Odoo : Type := {
  statements : list string;
  staged : list (Z * (string * string));
  logins : nat
}.

(** What the remote system is told to do: its answer to the first
    authentication and to the later ones, and the calls it refuses. *)
Record Behaviour : Type := {
  auth : Result XValue;
  auth_again : Result XValue;
  search_faults : bool;
  create_faults : bool;
  trigger_faults : bool
}.

Definition healthy : Behaviour :=
  {| auth := Ok (XInt 2); auth_again := Ok (XInt 2); search_faults := false;
     create_faults := false; trigger_faults := false |}.

(** The import trigger is refused. *)
Definition no_import : Behaviour :=
  {| auth := Ok (XInt 2); auth_again := Ok (XInt 2); search_faults := false;
     create_faults := false; trigger_faults := true |}.

(** The credentials are rejected. *)
Definition rejecting : Behaviour :=
  {| auth := Ok (XBool false); auth_again := Ok (XBool false);
     search_faults := false; create_faults := false; trigger_faults := false |}.

(** The connection is lost after the first authentication. *)
Definition dropping : Behaviour :=
  {| auth := Ok (XInt 2);
     auth_again := Raise (Exn ProtocolError "connection refused");
     search_faults := false; create_faults := false; trigger_faults := false |}.

(** The session changes hands between the two authentications. *)
Definition switching : Behaviour :=
  {| auth := Ok (XInt 2); auth_again := Ok (XInt 7); search_faults := false;
     create_faults := false; trigger_faults := false |}.

Definition fault (m : string) : PyExn := Exn Fault m.

(** The name the remote system gives the statement of a payload. *)
Definition statement_name (payload : string) : option string :=
  if String.eqb payload (Base64.b64encode (bytes xml_A)) then Some "STMT-000"
  else if String.eqb payload (Base64.b64encode (bytes xml_B)) then Some "STMT-001"
  else None.

Fixpoint staged_payload (id : Z) (l : list (Z * (string * string))) : option string :=
  match l with
  | [] => None
  | (i, (_, p)) :: l' => if (i =? id)%Z then Some p else staged_payload id l'
  end.

Definition odoo_rpc (b : Behaviour) (c : RpcCall) (o : Odoo) : Result XValue * Odoo :=
  if String.eqb (method c) "authenticate" then
    (match logins o with O => auth b | S _ => auth_again b end,
     {| statements := statements o; staged := staged o;
        logins := S (logins o) |})
  else
    match params c with
    | [_; _; _; XStr model; XStr meth; XList args] =>
        if String.eqb meth "search" then
          if search_faults b then (Raise (fault "search refused"), o)
          else
            match args with
            | [XList [XList [_; _; XStr name]]] =>
                if existsb (String.eqb name) (statements o)
                then (Ok (XList [XInt 1]), o)
                else (Ok (XList []), o)
            | _ => (Raise (fault "bad domain"), o)
            end
        else if String.eqb meth "create" then
          if create_faults b then (Raise (fault "create refused"), o)
          else
            match args with
            | [XStruct [(_, XStr f); (_, XStr p)]] =>
                let id := Z.of_nat (S (List.length (staged o))) in
                (Ok (XInt id),
                 {| statements := statements o;
                    staged := (id, (f, p)) :: staged o;
                    logins := logins o |})
            | _ => (Raise (fault "bad values"), o)
            end
        else if String.eqb meth "import_file_button" then
          if trigger_faults b then (Raise (fault "import refused"), o)
          else
            match args with
            | [XList [XInt id]] =>
                match staged_payload id (staged o) with
                | Some p =>
                    match statement_name p with
                    | Some n =>
                        (Ok (XBool true),
                         {| statements := n :: statements o;
                            staged := staged o; logins := logins o |})
                    | None => (Raise (fault "not a statement"), o)
                    end
                | None => (Raise (fault "no such record"), o)
                end
            | _ => (Raise (fault "bad ids"), o)
            end
        else (Raise (fault "unknown method"), o)
    | _ => (Raise (fault "bad request"), o)
    end.

Definition world (b : Behaviour) : World :=
  {| Remote := Odoo;
     rpc := odoo_rpc b;
     os_listdir := fs_listdir;
     read_binary := fs_read;
     XMLParser := parser;
     XMLParser_utf8 := parser |}.

Definition empty : Odoo := {| statements := []; staged := []; logins := 0 |}.

(** The state in which the pre-flight validation has been passed. *)
Definition validated : Odoo := {| statements := []; staged := []; logins := 1 |}.

Definition args_for (d : string) : Args :=
  {| directory := d; odoo_url := Some "http://odoo.example.com";
     db := Some "mydb"; username := Some "admin"; password := Some "secret";
     test_connection := false; blank := false; debug := false |}.

Definition blank_args_for (d : string) : Args :=
  {| directory := d; odoo_url := None; db := None; username := None;
     password := None; test_connection := false; blank := true; debug := true |}.

(** The remote state after one import run over [/in/one] on a healthy
    remote system: the statement STMT-001 is known. *)
Definition imported : Odoo :=
  {| statements := ["STMT-001"];
     staged := [(1%Z, ("camt.053_B.xml", Base64.b64encode (bytes xml_B)))];
     logins := 2 |}.

End Fixture.

(* ================================================================== *)
(** ** Further observations *)

(** The body of the loop of [process_directory_for_blanks]. *)
Definition inspect_for_blank `{World} (directory file_name : string) : M unit :=
  let file_path := os_path_join directory file_name in
  logging DEBUG "Inspecting file: {file_name}" [FStr file_name] ;;
  if negb (PyStr.startswith (PyStr.lower file_name) "camt.053")
     || negb (PyStr.endswith file_name ".xml")
  then logging DEBUG "Skipping non-CAMT.053 file: {file_name}" [FStr file_name]
  else
    blank <- is_blank_camt053 file_path ;;
    if blank then
      print "Blank file detected: {file_name}" [FStr file_name] ;;
      logging INFO "Blank file: {file_name}" [FStr file_name]
    else ret tt.

(** What a run writes to the standard output. *)
Definition printed (t : list Event) : list Message :=
  flat_map (fun ev => match ev with EvPrint m => [m] | _ => [] end) t.

(** What [ET.parse(file_path).getroot()] gives for a path, events
    aside. *)
Definition parse_outcome `{World} (file_path : string) : Result Element :=
  match read_binary file_path with
  | Ok data => XMLParser data
  | Raise e => Raise e
  end.

(** The file parses and its document has no entry below the root. *)
Definition is_blank_document `{World} (file_path : string) : bool :=
  match parse_outcome file_path with
  | Ok root => match findall_Ntry root with [] => true | _ :: _ => false end
  | Raise _ => false
  end.

(** The records of level DEBUG, and a trace without them. *)
Definition is_debug_log (ev : Event) : bool :=
  match ev with EvLog DEBUG _ => true | _ => false end.

Definition above_debug (t : list Event) : list Event :=
  filter (fun ev => negb (is_debug_log ev)) t.

(** A string that neither begins nor ends with white space. *)
Definition outer_space_free (l : list ascii) : bool :=
  match l with
  | [] => true
  | c :: _ => negb (PyStr.isspace c) && negb (PyStr.isspace (last l c))
  end.

(** A second directory tree: the middle entry of [/in/gap] is a
    directory whose name looks like a statement. *)
Module Shelf.

Definition fs_listdir (d : string) : Result (list string) :=
  if String.eqb d "/in/gap"
  then Ok ["camt.053_A.xml"; "camt.053_dir.xml"; "camt.053_B.xml"]
  else Raise (Exn OSError "No such file or directory").

Definition fs_read (p : string) : Result (list byte) :=
  if String.eqb p "/in/gap/camt.053_A.xml" then Ok (Fixture.bytes Fixture.xml_A)
  else if String.eqb p "/in/gap/camt.053_B.xml" then Ok (Fixture.bytes Fixture.xml_B)
  else if String.eqb p "/in/gap/camt.053_dir.xml"
  then Raise (Exn OSError "Is a directory")
  else Raise (Exn OSError "No such file or directory").

Definition world : World :=
  {| Remote := Fixture.Odoo;
     rpc := Fixture.odoo_rpc Fixture.healthy;
     os_listdir := fs_listdir;
     read_binary := fs_read;
     XMLParser := Fixture.parser;
     XMLParser_utf8 := Fixture.parser |}.

End Shelf.


(* ================================================================== *)
(** ** Reading base64 back

    The script only encodes.  The decoder below is the inverse used to
    state that the payload of an upload determines the bytes of the
    file. *)

Module Base64Inverse.

Fixpoint index_of (c : ascii) (s : string) (i : N) : option N :=
  match s with
  | EmptyString => None
  | String c' s' => if Ascii.eqb c c' then Some i else index_of c s' (N.succ i)
  end.

(** The six bits a digit stands for. *)
Definition value (c : ascii) : option N := index_of c Base64.alphabet 0.

Definition is_pad (c : ascii) : bool := Ascii.eqb c "="%char.

Definition byte_of (n : N) : option byte := Byte.of_N (n mod 256)%N.

(** Four digits make three bytes; a last group with one or two [=]
    makes one or two. *)
Fixpoint b64decode (s : string) : option (list byte) :=
  match s with
  | EmptyString => Some []
  | String c1 (String c2 (String c3 (String c4 rest))) =>
      match value c1, value c2 with
      | Some v1, Some v2 =>
          if is_pad c3 then
            match is_pad c4, rest, byte_of (v1 * 4 + v2 / 16)%N with
            | true, EmptyString, Some b1 => Some [b1]
            | _, _, _ => None
            end
          else
            match value c3 with
            | Some v3 =>
                let n18 := ((v1 * 64 + v2) * 64 + v3)%N in
                if is_pad c4 then
                  match rest, byte_of (n18 / 1024)%N, byte_of (n18 / 4)%N with
                  | EmptyString, Some b1, Some b2 => Some [b1; b2]
                  | _, _, _ => None
                  end
                else
                  match value c4 with
                  | Some v4 =>
                      let n24 := (n18 * 64 + v4)%N in
                      match byte_of (n24 / 65536)%N, byte_of (n24 / 256)%N,
                            byte_of n24, b64decode rest with
                      | Some b1, Some b2, Some b3, Some bs =>
                          Some (b1 :: b2 :: b3 :: bs)
                      | _, _, _, _ => None
                      end
                  | None => None
                  end
            | None => None
            end
      | _, _ => None
      end
  | _ => None
  end.

End Base64Inverse.


(* ================================================================== *)
(** ** A file in an encoding the parser does not take

    The middle file of [/in/enc] declares the encoding [shift_jis]:
    for such a declaration [ET.parse] raises [ValueError], which is no
    [ParseError].  The first and the last file are the blank statement
    and the statement STMT-001. *)

Module Codec.

Definition xml_sjis : string := "<?xml version='1.0' encoding='shift_jis'?><a>".

Definition value_error : PyExn :=
  Exn OtherException "ValueError: multi-byte encodings are not supported".

Definition parser (data : list byte) : Result Element :=
  if String.eqb (string_of_list_byte data) xml_sjis
  then Raise value_error
  else Fixture.parser data.

Definition fs_listdir (d : string) : Result (list string) :=
  if String.eqb d "/in/enc"
  then Ok ["camt.053_A.xml"; "camt.053_sjis.xml"; "camt.053_B.xml"]
  else Raise (Exn OSError "No such file or directory").

Definition fs_read (p : string) : Result (list byte) :=
  if String.eqb p "/in/enc/camt.053_A.xml" then Ok (Fixture.bytes Fixture.xml_A)
  else if String.eqb p "/in/enc/camt.053_sjis.xml" then Ok (Fixture.bytes xml_sjis)
  else if String.eqb p "/in/enc/camt.053_B.xml" then Ok (Fixture.bytes Fixture.xml_B)
  else Raise (Exn OSError "No such file or directory").

Definition world : World :=
  {| Remote := Fixture.Odoo;
     rpc := Fixture.odoo_rpc Fixture.healthy;
     os_listdir := fs_listdir;
     read_binary := fs_read;
     XMLParser := parser;
     XMLParser_utf8 := parser |}.

End Codec.


(* ================================================================== *)
(** * Properties *)

(** ** ElementTree queries *)

(** Induction on a tree, with the hypothesis for all children. *)
Lemma Element_induction (P : Element -> Prop) :
  (forall g x cs, Forall P cs -> P (Elem g x cs)) ->
  forall e, P e.
Proof.
  intros step. fix IH 1. intros [g x cs]. apply step.
  induction cs as [|c cs IHcs]; constructor; [apply IH | exact IHcs].
Qed.

Lemma iter_unfold g x cs :
  ET.iter (Elem g x cs) = Elem g x cs :: flat_map ET.iter cs.
Proof.
  reflexivity.
Qed.

Lemma iter_descendants e : ET.iter e = e :: ET.descendants e.
Proof. destruct e as [g x cs]. apply iter_unfold. Qed.

(** Counting by recursion on the tree and counting along the document
    order agree. *)
Lemma count_tag_iter t e :
  count_tag t e = List.length (filter (ET.has_tag t) (ET.iter e)).
Proof.
  induction e as [g x cs IH] using Element_induction.
  rewrite iter_unfold. simpl. unfold ET.has_tag at 1. simpl.
  assert (Hcs : (fix sum (l : list Element) : nat :=
                   match l with
                   | [] => 0
                   | c :: l' => count_tag t c + sum l'
                   end) cs
                = List.length (filter (ET.has_tag t) (flat_map ET.iter cs))).
  { induction IH as [|c cs Hc _ IHcs]; [reflexivity|].
    simpl. rewrite filter_app, length_app, Hc, IHcs. reflexivity. }
  rewrite Hcs. destruct (String.eqb g t); reflexivity.
Qed.

Lemma findall_Ntry_descendants root :
  findall_Ntry root = filter (ET.has_tag (qname "Ntry")) (ET.descendants root).
Proof. unfold findall_Ntry, ET.select_descendant. simpl. apply app_nil_r. Qed.

(** When the root is not itself an entry, [findall] misses none. *)
Lemma findall_Ntry_count root :
  tag root <> qname "Ntry" ->
  List.length (findall_Ntry root) = count_tag (qname "Ntry") root.
Proof.
  intros Hroot. rewrite count_tag_iter, iter_descendants, findall_Ntry_descendants.
  simpl. unfold ET.has_tag at 2.
  destruct (String.eqb_spec (tag root) (qname "Ntry")); [contradiction|reflexivity].
Qed.

(** ** Running the workflows *)

Ltac unfold_script :=
  cbv beta iota zeta delta
    [main process_directory process_file upload_and_import check_existing
     extract_statement_id process_directory_for_blanks is_blank_camt053
     validate_odoo_connection setup_logging debug_log logging print listdir
     ET_parse_path ET_parse_text bind ret raise emit lift try_except call
     result_of remote_of trace_of fst snd is_Exception].

(** ** The blankness check *)

(** C1.  For a file that parses, with a root that is not itself an
    [Ntry] element (the root of a CAMT.053 message is [Document]), the
    blankness check returns true exactly when the document contains no
    [Ntry] element of the camt.053.001.04 namespace, and false when it
    contains one or more. *)
Theorem is_blank_iff_no_entries `{World}
    (file_path : string) (data : list byte) (root : Element) (r : Remote) :
  read_binary file_path = Ok data ->
  XMLParser data = Ok root ->
  tag root <> qname "Ntry" ->
  result_of (is_blank_camt053 file_path r)
  = Ok (count_tag (qname "Ntry") root =? 0)%nat.
Proof.
  intros Hread Hparse Hroot. unfold_script. rewrite Hread, Hparse.
  rewrite <- (findall_Ntry_count root Hroot).
  destruct (findall_Ntry root); reflexivity.
Qed.

Lemma is_blank_iff_no_entries_witness :
  @result_of (Fixture.world Fixture.healthy) _
    (@is_blank_camt053 (Fixture.world Fixture.healthy)
       "/in/two/camt.053_B.xml" Fixture.empty)
  = Ok (count_tag (qname "Ntry") Fixture.doc_B =? 0)%nat.
Proof.
  apply (@is_blank_iff_no_entries (Fixture.world Fixture.healthy)
           "/in/two/camt.053_B.xml" (Fixture.bytes Fixture.xml_B)
           Fixture.doc_B Fixture.empty).
  - reflexivity.
  - reflexivity.
  - intros Heq. vm_compute in Heq. discriminate Heq.
Defined.




(** ** Strings *)

Lemma starts_spec p l :
  PyStr.starts p l = true <-> exists rest, l = (p ++ rest)%list.
Proof.
  revert l. induction p as [|a p IHp]; intros l; simpl.
  - split; [intros _; now exists l | reflexivity].
  - destruct l as [|b l].
    + split; [discriminate | intros [rest Hrest]; discriminate Hrest].
    + rewrite andb_true_iff, IHp. split.
      * intros [Hab [rest ->]]. apply Ascii.eqb_eq in Hab. subst b. now exists rest.
      * intros [rest Hrest]. injection Hrest as -> ->.
        split; [apply Ascii.eqb_refl | now exists rest].
Qed.

Lemma chars_app s1 s2 :
  PyStr.chars (s1 ++ s2) = (PyStr.chars s1 ++ PyStr.chars s2)%list.
Proof.
  unfold PyStr.chars. induction s1 as [|c s1 IHs1]; simpl; [reflexivity|].
  now rewrite IHs1.
Qed.

Lemma of_chars_chars s : PyStr.of_chars (PyStr.chars s) = s.
Proof. apply string_of_list_ascii_of_string. Qed.

Lemma chars_of_chars l : PyStr.chars (PyStr.of_chars l) = l.
Proof. apply list_ascii_of_string_of_list_ascii. Qed.

(** [s.startswith(p)] holds exactly when [s] is [p] followed by
    something. *)
Lemma startswith_spec s p :
  PyStr.startswith s p = true <-> exists rest, s = p ++ rest.
Proof.
  unfold PyStr.startswith. rewrite starts_spec. split.
  - intros [rest Hrest]. exists (PyStr.of_chars rest).
    rewrite <- (of_chars_chars s), Hrest, <- (of_chars_chars (p ++ _)).
    now rewrite chars_app, chars_of_chars.
  - intros [rest ->]. exists (PyStr.chars rest). apply chars_app.
Qed.

(** [s.endswith(p)] holds exactly when [s] is something followed by
    [p], character for character. *)
Lemma endswith_spec s p :
  PyStr.endswith s p = true <-> exists stem, s = stem ++ p.
Proof.
  unfold PyStr.endswith. rewrite starts_spec. split.
  - intros [rest Hrest]. exists (PyStr.of_chars (rev rest)).
    rewrite <- (of_chars_chars s), <- (rev_involutive (PyStr.chars s)), Hrest.
    rewrite rev_app_distr, rev_involutive, <- (of_chars_chars (_ ++ p)).
    now rewrite chars_app, chars_of_chars.
  - intros [stem ->]. exists (rev (PyStr.chars stem)).
    now rewrite chars_app, rev_app_distr.
Qed.

(** ** The filename filter of the blank-detection workflow *)

(** C6, as the code has it.  A directory entry is inspected by the
    blank-detection workflow exactly when its lower-cased name begins
    with [camt.053] and the name itself ends with the characters
    [.xml]: the prefix is matched without regard to case, the suffix
    with regard to it.  So [statement.xml] and [CAMT.053_2025.XML] are
    ignored and [CAMT.053_2025.xml] is inspected. *)
Theorem blank_filter_prefix_any_case_suffix_exact `{World}
    (d file_name : string) (r : Remote) :
  os_listdir d = Ok [file_name] ->
  parsed (trace_of (process_directory_for_blanks d r))
  = (if is_camt053_name file_name then [os_path_join d file_name] else []) /\
  (is_camt053_name file_name = true <->
   (exists rest, PyStr.lower file_name = "camt.053" ++ rest) /\
   (exists stem, file_name = stem ++ ".xml")) /\
  is_camt053_name "statement.xml" = false /\
  is_camt053_name "CAMT.053_2025.XML" = false /\
  is_camt053_name "CAMT.053_2025.xml" = true.
Proof.
  intros Hls. split; [|split; [|repeat split]].
  - unfold is_camt053_name. unfold_script. rewrite Hls. simpl for_each.
    unfold_script.
    destruct (negb (PyStr.startswith (PyStr.lower file_name) "camt.053")
              || negb (PyStr.endswith file_name ".xml")); simpl; [reflexivity|].
    destruct (read_binary (os_path_join d file_name)) as [data|e]; simpl.
    + destruct (XMLParser data) as [root|e]; simpl.
      * destruct (findall_Ntry root); reflexivity.
      * destruct (is_ParseError e); reflexivity.
    + destruct (is_ParseError e); reflexivity.
  - unfold is_camt053_name.
    rewrite negb_true_iff, orb_false_iff, !negb_false_iff.
    now rewrite startswith_spec, endswith_spec.
Qed.

Lemma blank_filter_prefix_any_case_suffix_exact_witness :
  parsed (@trace_of (Fixture.world Fixture.healthy) _
            (@process_directory_for_blanks (Fixture.world Fixture.healthy)
               "/in/one" Fixture.empty))
  = ["/in/one/camt.053_B.xml"].
Proof.
  apply (@blank_filter_prefix_any_case_suffix_exact
           (Fixture.world Fixture.healthy) "/in/one" "camt.053_B.xml"
           Fixture.empty).
  reflexivity.
Defined.

(** C6, as stated, fails: the blank-detection workflow does not inspect
    [CAMT.053_2025.XML]; of the three entries of the directory only the
    one with the lower-case suffix is read. *)
Lemma blank_filter_ignores_upper_case_suffix :
  @os_listdir (Fixture.world Fixture.healthy) "/in/names"
  = Ok ["statement.xml"; "CAMT.053_2025.XML"; "CAMT.053_2025.xml"] /\
  ~ In "/in/names/CAMT.053_2025.XML"
       (parsed (@trace_of (Fixture.world Fixture.healthy) _
                  (@process_directory_for_blanks (Fixture.world Fixture.healthy)
                     "/in/names" Fixture.empty))) /\
  parsed (@trace_of (Fixture.world Fixture.healthy) _
            (@process_directory_for_blanks (Fixture.world Fixture.healthy)
               "/in/names" Fixture.empty))
  = ["/in/names/CAMT.053_2025.xml"].
Proof.
  split; [reflexivity|]. split; [|reflexivity].
  vm_compute. intros [Heq|[]]. discriminate Heq.
Qed.

(** ** Extraction of the statement identifier *)

(** An identifier node with non-empty text yields the text stripped of
    surrounding white space. *)
Lemma extract_statement_id_text `{World}
    (file_name file_path : string) (data : list byte) (root node : Element)
    (txt : string) (r : Remote) :
  read_binary file_path = Ok data ->
  XMLParser_utf8 data = Ok root ->
  find_Stmt_Id root = Some node ->
  text node = Some txt ->
  PyStr.nonempty txt = true ->
  extract_statement_id file_name file_path r
  = (Ok (Some (PyStr.strip txt)), r, [EvOpen file_path "r"]).
Proof.
  intros Hread Hparse Hfind Htext Hne. unfold_script.
  rewrite Hread, Hparse, Hfind, Htext.
  destruct txt; [discriminate Hne | reflexivity].
Qed.

(** A missing node, or a node without text, is reported and the file
    is skipped. *)
Lemma extract_statement_id_missing `{World}
    (file_name file_path : string) (data : list byte) (root : Element)
    (r : Remote) :
  read_binary file_path = Ok data ->
  XMLParser_utf8 data = Ok root ->
  (find_Stmt_Id root = None \/
   exists node, find_Stmt_Id root = Some node /\
                (text node = None \/ text node = Some "")) ->
  extract_statement_id file_name file_path r
  = (Ok None, r,
     [EvOpen file_path "r";
      EvLog ERROR (Msg "Could not extract statement ID from file: {file_name}"
                       [FStr file_name])]).
Proof.
  intros Hread Hparse Hcase. unfold_script. rewrite Hread, Hparse.
  destruct Hcase as [-> | [node [-> [-> | ->]]]]; reflexivity.
Qed.

(** C5, at the failing input.  The identifier node of the document
    holds three spaces.  The extraction does not report the identifier
    as absent: it yields the empty string, the existence check is made
    for the name [""] and the file is staged for import. *)
Theorem whitespace_identifier_is_not_absent :
  find_Stmt_Id Fixture.doc_W = Some (Elem (qname "Id") (Some "   ") []) /\
  @result_of (Fixture.world Fixture.healthy) _
    (@extract_statement_id (Fixture.world Fixture.healthy)
       "camt.053_W.xml" "/in/ws/camt.053_W.xml" Fixture.empty)
  = Ok (Some "") /\
  In (search_call (Some "http://odoo.example.com") (Some "mydb") (XInt 2)
                  (Some "secret") "")
     (rpc_calls (@trace_of (Fixture.world Fixture.healthy) _
                   (@main (Fixture.world Fixture.healthy)
                      (Fixture.args_for "/in/ws") Fixture.empty))) /\
  creates_for "camt.053_W.xml"
    (@trace_of (Fixture.world Fixture.healthy) _
       (@main (Fixture.world Fixture.healthy)
          (Fixture.args_for "/in/ws") Fixture.empty)) = 1.
Proof.
  split; [reflexivity|]. split; [reflexivity|]. split; [|reflexivity].
  vm_compute. right. right. left. reflexivity.
Qed.

(** ** Connection validation *)

(** C7.  In an import run, [main] validates the connection with one
    [authenticate] call before anything else.  When the call returns a
    user identifier that counts as true, the identifier is logged and
    printed and the batch follows.  When it returns a value that counts
    as false, or faults, the fault is caught, a failure is logged and
    printed, and [main] returns without an exception and without having
    listed the directory or opened a file. *)
Theorem connection_validated_before_batch `{World} (args : Args) (r : Remote) :
  blank args = false ->
  let c := authenticate_call (odoo_url args) (db args) (username args)
                             (password args) in
  let validating :=
    [EvLog DEBUG (Msg "Logging setup complete. Debug mode is active." []);
     EvLog DEBUG
       (Msg "Validating connection to Odoo: {url}, DB: {db}, User: {username}"
            [FVal (xval (odoo_url args)); FVal (xval (db args));
             FVal (xval (username args))])] in
  let run := main args r in
  match rpc c r with
  | (Ok uid, r1) =>
      if truthy uid then
        let batch := process_directory (directory args) (odoo_url args)
                       (db args) (username args) (password args) (debug args) r1 in
        result_of run = result_of batch /\
        remote_of run = remote_of batch /\
        trace_of run
        = (validating ++
           [EvRpc c (Ok uid);
            EvLog DEBUG (Msg "Connection successful. User ID: {uid}" [FVal uid]);
            EvPrint (Msg "Connection successful: User ID {uid}" [FVal uid])] ++
           trace_of batch)%list
      else
        run = (Ok tt, r1,
               (validating ++
                [EvRpc c (Ok uid);
                 EvLog ERROR (Msg "Authentication failed." []);
                 EvPrint (Msg "Authentication failed." []);
                 EvPrint (Msg "Failed to connect to Odoo. Exiting." [])])%list) /\
        no_file_touched (trace_of run) = true
  | (Raise e, r1) =>
      run = (Ok tt, r1,
             (validating ++
              [EvRpc c (Raise e);
               EvLog ERROR (Msg "Error connecting to Odoo:" [FExn e]);
               EvPrint (Msg "Failed to connect to Odoo. Exiting." [])])%list) /\
      no_file_touched (trace_of run) = true
  end.
Proof.
  intros Hblank c validating run. subst c validating run.
  cbv beta iota zeta delta
    [main validate_odoo_connection setup_logging logging print bind ret emit
     try_except call is_Exception].
  rewrite Hblank.
  destruct (rpc _ r) as [[uid|e] r1]; cbv beta iota zeta.
  - destruct (truthy uid); cbv beta iota zeta delta [bind ret emit].
    + destruct (process_directory _ _ _ _ _ _ r1) as [[res r2] t].
      repeat split.
    + split; reflexivity.
  - split; reflexivity.
Qed.

Lemma connection_validated_before_batch_witness :
  @main (Fixture.world Fixture.rejecting)
        (Fixture.args_for "/in/two") Fixture.empty
  = (Ok tt, Fixture.validated,
     [EvLog DEBUG (Msg "Logging setup complete. Debug mode is active." []);
      EvLog DEBUG
        (Msg "Validating connection to Odoo: {url}, DB: {db}, User: {username}"
             [FVal (XStr "http://odoo.example.com"); FVal (XStr "mydb");
              FVal (XStr "admin")]);
      EvRpc (authenticate_call (Some "http://odoo.example.com") (Some "mydb")
                               (Some "admin") (Some "secret"))
            (Ok (XBool false));
      EvLog ERROR (Msg "Authentication failed." []);
      EvPrint (Msg "Authentication failed." []);
      EvPrint (Msg "Failed to connect to Odoo. Exiting." [])]).
Proof.
  apply (@connection_validated_before_batch
           (Fixture.world Fixture.rejecting)
           (Fixture.args_for "/in/two") Fixture.empty).
  reflexivity.
Defined.

(** ** One file of the import workflow *)

(** Case analysis on everything the world can answer while a workflow
    runs, until the outcome is a value. *)
Ltac world_cases :=
  repeat (cbv beta iota zeta delta [negb];
          match goal with
          | |- context [match ?x with _ => _ end] =>
              lazymatch x with
              | context [match _ with _ => _ end] => fail
              | _ => first [ is_var x; destruct x | destruct x eqn:? ]
              end
          end);
  cbv beta iota zeta.

Lemma faults_logged_app (a b : list Event) :
  faults_logged a = true -> faults_logged b = true ->
  faults_logged (a ++ b) = true.
Proof.
  intros Ha Hb. induction a as [|ev a IHa]; [exact Hb|].
  destruct ev as [m|lvl m|d|p|p md|c [v|e]]; simpl in *; auto.
  destruct a as [|[m|[| |] m|d|p|p md|c' reply] a']; try discriminate Ha.
  exact (IHa Ha).
Qed.

Lemma fault_ends_file_app (a b : list Event) :
  (forall f, fault_ends_file f b = true) ->
  forall f, fault_ends_file f a = true -> fault_ends_file f (a ++ b) = true.
Proof.
  intros Hb. induction a as [|ev a IHa]; intros f Ha; [apply Hb|].
  destruct ev as [m|lvl m|d|p|p md|c reply]; simpl in *; auto.
  apply andb_true_iff in Ha as [Hf Ha]. rewrite Hf. simpl. auto.
Qed.

Lemma parsed_app (a b : list Event) :
  parsed (a ++ b) = (parsed a ++ parsed b)%list.
Proof. apply flat_map_app. Qed.

Lemma rpc_calls_app (a b : list Event) :
  rpc_calls (a ++ b) = (rpc_calls a ++ rpc_calls b)%list.
Proof. apply flat_map_app. Qed.

(** What holds of the processing of a file whatever the world answers:
    only the file itself is parsed, every remote call carries the user
    identifier given to the loop, a faulting call is logged at once and
    is the last call made for the file. *)
Lemma process_file_trace `{World}
    (d : string) (url db : Opt) (uid : XValue) (pw : Opt) (dbg : bool)
    (n : string) (r : Remote) :
  let t := trace_of (process_file d url db uid pw dbg n r) in
  parsed t = (if PyStr.endswith n ".xml" then [os_path_join d n] else []) /\
  Forall (fun c => kw_uid c = Some uid) (rpc_calls t) /\
  faults_logged t = true /\
  (forall f, fault_ends_file f t = true).
Proof.
  destruct (PyStr.endswith n ".xml") eqn:Hxml.
  all: unfold_script; rewrite Hxml; world_cases.
  all: repeat split; try reflexivity; try (repeat constructor; fail).
  all: intros [|]; reflexivity.
Qed.

Ltac find_event := cbn [app In]; repeat first [left; reflexivity | right].

(** A file that can be read, well-formed or not, never makes the loop
    body raise: whatever fails is caught inside the body. *)
Lemma process_file_returns `{World}
    (d : string) (url db : Opt) (uid : XValue) (pw : Opt) (dbg : bool)
    (n : string) (r : Remote) :
  negb (PyStr.endswith n ".xml") || xml_or_malformed (os_path_join d n) = true ->
  result_of (process_file d url db uid pw dbg n r) = Ok tt.
Proof.
  unfold xml_or_malformed.
  destruct (PyStr.endswith n ".xml") eqn:Hxml; simpl negb; simpl orb; intros Hfile.
  - destruct (read_binary (os_path_join d n)) as [data|e] eqn:Hread;
      [|discriminate Hfile].
    destruct (XMLParser data) as [root|e] eqn:Hparse.
    + unfold_script. rewrite Hxml, Hread, Hparse. world_cases. all: reflexivity.
    + unfold_script. rewrite Hxml, Hread, Hparse, Hfile. world_cases.
      all: reflexivity.
  - unfold_script. rewrite Hxml. world_cases. all: reflexivity.
Qed.

(** The parse error of a malformed file is recorded. *)
Lemma process_file_logs_parse_error `{World}
    (d : string) (url db : Opt) (uid : XValue) (pw : Opt) (dbg : bool)
    (n : string) (r : Remote) (data : list byte) (e : PyExn) :
  PyStr.endswith n ".xml" = true ->
  read_binary (os_path_join d n) = Ok data ->
  XMLParser data = Raise e ->
  is_ParseError e = true ->
  In (EvLog ERROR (Msg "Error parsing XML file {file_path}: {e}"
                       [FStr (os_path_join d n); FExn e]))
     (trace_of (process_file d url db uid pw dbg n r)).
Proof.
  intros Hxml Hread Hparse He. unfold_script.
  rewrite Hxml, Hread, Hparse, He. world_cases. all: find_event.
Qed.

(** A file that neither parser accepts is skipped: both errors are
    recorded, nothing is asked of the remote system. *)
Lemma process_file_skips_malformed `{World}
    (d : string) (url db : Opt) (uid : XValue) (pw : Opt) (dbg : bool)
    (n : string) (r : Remote) (data : list byte) (e e' : PyExn) :
  PyStr.endswith n ".xml" = true ->
  read_binary (os_path_join d n) = Ok data ->
  XMLParser data = Raise e ->
  is_ParseError e = true ->
  XMLParser_utf8 data = Raise e' ->
  let run := process_file d url db uid pw dbg n r in
  result_of run = Ok tt /\ remote_of run = r /\ rpc_calls (trace_of run) = [] /\
  In (EvLog ERROR
        (Msg "Error extracting statement ID from file {file_name}: {e}"
             [FStr n; FExn e'])) (trace_of run).
Proof.
  intros Hxml Hread Hparse He Htext. unfold_script.
  rewrite Hxml, Hread, Hparse, He, Htext. destruct dbg; cbv beta iota zeta.
  all: repeat split; find_event.
Qed.

(** ** The loop over the directory *)

Lemma for_each_cons `{World} (A : Type) (x : A) (l : list A)
    (body : A -> M unit) (r : Remote) :
  for_each (x :: l) body r
  = match body x r with
    | (Ok _, r1, t1) =>
        let '(res, r2, t2) := for_each l body r1 in (res, r2, (t1 ++ t2)%list)
    | (Raise e, r1, t1) => (Raise e, r1, t1)
    end.
Proof. reflexivity. Qed.

(** A property of traces that holds of the empty trace, of every turn
    of the loop and of concatenations holds of the whole loop, whether
    or not the loop runs to its end. *)
Lemma for_each_trace `{World} (A : Type) (P : list Event -> Prop)
    (body : A -> M unit) (l : list A) :
  P [] ->
  (forall a b, P a -> P b -> P (a ++ b)%list) ->
  (forall x r, In x l -> P (trace_of (body x r))) ->
  forall r, P (trace_of (for_each l body r)).
Proof.
  intros Hnil Happ. induction l as [|x l IHl]; intros Hbody r; [exact Hnil|].
  rewrite for_each_cons.
  specialize (Hbody x r (or_introl eq_refl)) as Hx.
  destruct (body x r) as [[[[]|e] r1] t1]; [|exact Hx].
  specialize (IHl (fun y r' Hy => Hbody y r' (or_intror Hy)) r1).
  destruct (for_each l body r1) as [[res r2] t2]. apply Happ; assumption.
Qed.

(** When every listed file can be read, the loop of the import
    workflow runs to its end, begins every [.xml] entry in the order of
    the listing, and records each parse error. *)
Lemma import_loop_completes `{World}
    (d : string) (url db : Opt) (uid : XValue) (pw : Opt) (dbg : bool)
    (names : list string) :
  forallb (fun n => negb (PyStr.endswith n ".xml")
                    || xml_or_malformed (os_path_join d n)) names = true ->
  forall r,
    let run := for_each names (process_file d url db uid pw dbg) r in
    result_of run = Ok tt /\
    parsed (trace_of run)
    = map (os_path_join d) (filter (fun n => PyStr.endswith n ".xml") names) /\
    (forall n data e,
        In n names -> PyStr.endswith n ".xml" = true ->
        read_binary (os_path_join d n) = Ok data -> XMLParser data = Raise e ->
        In (EvLog ERROR (Msg "Error parsing XML file {file_path}: {e}"
                             [FStr (os_path_join d n); FExn e]))
           (trace_of run)).
Proof.
  induction names as [|x names IH]; intros Hfiles r.
  - repeat split. intros n data e [].
  - simpl in Hfiles. apply andb_true_iff in Hfiles as [Hx Hrest].
    specialize (IH Hrest). cbv zeta. rewrite for_each_cons.
    pose proof (process_file_returns d url db uid pw dbg x r Hx) as Hret.
    pose proof (process_file_trace d url db uid pw dbg x r) as [Hparsed _].
    destruct (process_file d url db uid pw dbg x r) as [[res r1] t1] eqn:Hrun.
    unfold result_of, trace_of in Hret, Hparsed. simpl in Hret, Hparsed.
    subst res. specialize (IH r1). cbv zeta in IH. destruct IH as [IHres [IHparsed IHlog]].
    destruct (for_each names (process_file d url db uid pw dbg) r1)
      as [[res r2] t2].
    unfold result_of, trace_of in *. simpl in *.
    split; [exact IHres|]. split.
    + rewrite parsed_app, Hparsed, IHparsed.
      destruct (PyStr.endswith x ".xml"); reflexivity.
    + intros n data e [<-|Hn] Hxml Hread Hparse; apply in_or_app.
      * left. unfold xml_or_malformed in Hx. rewrite Hxml, Hread, Hparse in Hx.
        pose proof (process_file_logs_parse_error d url db uid pw dbg x r
                      Hxml Hread Hparse Hx) as Hlog.
        rewrite Hrun in Hlog. exact Hlog.
      * right. eapply IHlog; eassumption.
Qed.

Lemma process_directory_unfold `{World}
    (d : string) (url db user pw : Opt) (dbg : bool) (r : Remote) :
  process_directory d url db user pw dbg r
  = let c := authenticate_call url db user pw in
    let intro :=
      if dbg
      then [EvLog DEBUG (Msg "Processing directory: {directory}" [FStr d])]
      else [] in
    match rpc c r with
    | (Ok uid, r1) =>
        match os_listdir d with
        | Ok names =>
            let '(res, r2, t) :=
              for_each names (process_file d url db uid pw dbg) r1 in
            (res, r2, (intro ++ EvRpc c (Ok uid) :: EvListdir d :: t)%list)
        | Raise e =>
            (Raise e, r1, (intro ++ [EvRpc c (Ok uid); EvListdir d])%list)
        end
    | (Raise e, r1) => (Raise e, r1, (intro ++ [EvRpc c (Raise e)])%list)
    end.
Proof.
  cbv beta iota zeta delta
    [process_directory debug_log logging listdir bind ret emit lift call].
  destruct dbg; destruct (rpc _ r) as [[uid|e] r1]; try reflexivity;
    destruct (os_listdir d) as [names|e]; try reflexivity;
    destruct (for_each names _ r1) as [[res r2] t]; reflexivity.
Qed.

(** ** Batch resilience *)

(** X17.  What the import workflow does isolate.  Once the workflow's
    own [authenticate] call has returned and the directory has been
    listed, and when for every listed [.xml] entry [ET.parse] of the
    file returns a tree or raises [ParseError] (for no entry does the
    read fail or the parser raise another exception), the run ends
    without an exception whatever the remote system answers; the
    blankness check is begun on every [.xml] entry, in the order of
    the listing; the parse error of each malformed file is logged, and
    when reading it as text fails as well the file is skipped without
    a remote call; each faulting remote call is directly followed by
    an error record and is the last call made for its file. *)
Theorem batch_resilience `{World}
    (d : string) (url db user pw : Opt) (dbg : bool)
    (names : list string) (uid : XValue) (r r1 : Remote) :
  rpc (authenticate_call url db user pw) r = (Ok uid, r1) ->
  os_listdir d = Ok names ->
  forallb (fun n => negb (PyStr.endswith n ".xml")
                    || xml_or_malformed (os_path_join d n)) names = true ->
  let run := process_directory d url db user pw dbg r in
  result_of run = Ok tt /\
  parsed (trace_of run)
  = map (os_path_join d) (filter (fun n => PyStr.endswith n ".xml") names) /\
  (forall n data e,
      In n names -> PyStr.endswith n ".xml" = true ->
      read_binary (os_path_join d n) = Ok data -> XMLParser data = Raise e ->
      In (EvLog ERROR (Msg "Error parsing XML file {file_path}: {e}"
                           [FStr (os_path_join d n); FExn e]))
         (trace_of run)) /\
  (forall n r' data e e',
      PyStr.endswith n ".xml" = true ->
      read_binary (os_path_join d n) = Ok data ->
      XMLParser data = Raise e -> is_ParseError e = true ->
      XMLParser_utf8 data = Raise e' ->
      let turn := process_file d url db uid pw dbg n r' in
      result_of turn = Ok tt /\ remote_of turn = r' /\
      rpc_calls (trace_of turn) = []) /\
  faults_logged (trace_of run) = true /\
  fault_ends_file false (trace_of run) = true.
Proof.
  intros Hauth Hls Hfiles run. subst run.
  rewrite process_directory_unfold. cbv zeta. rewrite Hauth, Hls.
  destruct (import_loop_completes d url db uid pw dbg names Hfiles r1)
    as [Hres [Hparsed Hlog]].
  assert (Hfl : faults_logged
                  (trace_of (for_each names (process_file d url db uid pw dbg) r1))
                = true).
  { apply (for_each_trace (fun t => faults_logged t = true));
      [reflexivity | apply faults_logged_app |].
    intros x r' _. apply process_file_trace. }
  assert (Hfe : forall f,
             fault_ends_file f
               (trace_of (for_each names (process_file d url db uid pw dbg) r1))
             = true).
  { apply (for_each_trace (fun t => forall f, fault_ends_file f t = true));
      [reflexivity | |].
    - intros a b Ha Hb f. apply fault_ends_file_app; auto.
    - intros x r' _. apply process_file_trace. }
  destruct (for_each names (process_file d url db uid pw dbg) r1)
    as [[res r2] t].
  unfold result_of, trace_of in *. simpl in Hres, Hparsed, Hlog, Hfl, Hfe. simpl.
  split; [exact Hres|]. split; [|split; [|split; [|split]]].
  - destruct dbg; simpl; exact Hparsed.
  - intros n data e Hn Hxml Hread Hparse. apply in_or_app. right.
    right. right. eapply Hlog; eassumption.
  - intros n r' data e e' Hxml Hread Hparse He Htext.
    destruct (process_file_skips_malformed d url db uid pw dbg n r'
                Hxml Hread Hparse He Htext) as [H1 [H2 [H3 _]]].
    auto.
  - destruct dbg; simpl; exact Hfl.
  - destruct dbg; simpl; apply Hfe.
Qed.

Lemma batch_resilience_witness :
  let w := Fixture.world Fixture.no_import in
  let run := @process_directory w "/in/mix" (Some "http://odoo.example.com")
               (Some "mydb") (Some "admin") (Some "secret") false Fixture.empty in
  @result_of w _ run = Ok tt /\
  parsed (@trace_of w _ run)
  = ["/in/mix/broken.xml"; "/in/mix/camt.053_A.xml"; "/in/mix/camt.053_B.xml"].
Proof.
  intros w run.
  destruct (@batch_resilience w "/in/mix" (Some "http://odoo.example.com")
              (Some "mydb") (Some "admin") (Some "secret") false
              ["notes.txt"; "broken.xml"; "camt.053_A.xml"; "camt.053_B.xml"]
              (XInt 2) Fixture.empty Fixture.validated
              eq_refl eq_refl eq_refl) as [Hres [Hparsed _]].
  split; [exact Hres | exact Hparsed].
Defined.

(** The hypothesis on the files is needed: the blankness check only
    catches [ParseError], so an entry named [*.xml] that cannot be read
    ends the run with the exception of the read. *)
Example unreadable_entry_ends_the_run :
  @result_of (Fixture.world Fixture.healthy) _
    (@main (Fixture.world Fixture.healthy) (Fixture.args_for "/in/sub")
       Fixture.empty)
  = Raise (Exn OSError "Is a directory").
Proof. reflexivity. Qed.

(** C3, at the failing input.  The directory holds three files; the
    second one is malformed in a way for which the parser raises an
    exception that is no [ParseError].  The call of the blankness
    check in the loop stands outside every [try] (the extraction, the
    existence check and the upload catch [Exception]): the exception
    is not caught at the file, it is not logged, and it ends [main].
    The third file, a statement the remote system does not know and
    that a turn of the loop on its own stages, is never begun. *)
Theorem undecodable_file_ends_the_batch :
  let w := Codec.world in
  let run := @main w (Fixture.args_for "/in/enc") Fixture.empty in
  @os_listdir w "/in/enc"
  = Ok ["camt.053_A.xml"; "camt.053_sjis.xml"; "camt.053_B.xml"] /\
  @XMLParser w (Fixture.bytes Codec.xml_sjis) = Raise Codec.value_error /\
  is_ParseError Codec.value_error = false /\
  @result_of w _ run = Raise Codec.value_error /\
  parsed (@trace_of w _ run)
  = ["/in/enc/camt.053_A.xml"; "/in/enc/camt.053_sjis.xml"] /\
  filter (fun ev => match ev with EvLog ERROR _ => true | _ => false end)
         (@trace_of w _ run) = [] /\
  creates_for "camt.053_B.xml" (@trace_of w _ run) = 0 /\
  creates_for "camt.053_B.xml"
    (@trace_of w _
       (@process_file w "/in/enc" (Some "http://odoo.example.com")
          (Some "mydb") (XInt 2) (Some "secret") false "camt.053_B.xml"
          Fixture.validated)) = 1.
Proof. repeat split. Qed.

(** ** The entry point *)

(** The events of a passed pre-flight validation. *)
Lemma main_after_validation `{World} (args : Args) (r r1 : Remote) (uid1 : XValue) :
  blank args = false ->
  rpc (authenticate_call (odoo_url args) (db args) (username args)
                         (password args)) r = (Ok uid1, r1) ->
  truthy uid1 = true ->
  exists before,
    no_file_touched before = true /\
    rpc_calls before
    = [authenticate_call (odoo_url args) (db args) (username args)
                         (password args)] /\
    main args r
    = let '(res, r2, t) :=
        process_directory (directory args) (odoo_url args) (db args)
                          (username args) (password args) (debug args) r1 in
      (res, r2, (before ++ t)%list).
Proof.
  intros Hblank Hauth Huid.
  exists [EvLog DEBUG (Msg "Logging setup complete. Debug mode is active." []);
          EvLog DEBUG
            (Msg "Validating connection to Odoo: {url}, DB: {db}, User: {username}"
                 [FVal (xval (odoo_url args)); FVal (xval (db args));
                  FVal (xval (username args))]);
          EvRpc (authenticate_call (odoo_url args) (db args) (username args)
                                   (password args)) (Ok uid1);
          EvLog DEBUG (Msg "Connection successful. User ID: {uid}" [FVal uid1]);
          EvPrint (Msg "Connection successful: User ID {uid}" [FVal uid1])].
  split; [|split].
  3: { cbv beta iota zeta delta
         [main validate_odoo_connection setup_logging logging print bind ret
          emit try_except call is_Exception].
       rewrite Hblank, Hauth. cbv beta iota zeta. rewrite Huid.
       cbv beta iota zeta delta [bind ret emit].
       destruct (process_directory _ _ _ _ _ _ r1) as [[res r2] t].
       reflexivity. }
  - reflexivity.
  - reflexivity.
Qed.

Lemma main_blank `{World} (args : Args) (r : Remote) :
  blank args = true ->
  main args r
  = let '(res, r1, t) := process_directory_for_blanks (directory args) r in
    (res, r1,
     EvLog DEBUG (Msg "Logging setup complete. Debug mode is active." [])
     :: EvLog DEBUG
          (Msg "--blank flag detected. Skipping database connection." [])
     :: t).
Proof.
  intros Hblank.
  cbv beta iota zeta delta [main setup_logging logging bind ret emit].
  rewrite Hblank. cbv beta iota zeta.
  destruct (process_directory_for_blanks (directory args) r) as [[res r1] t].
  reflexivity.
Qed.

Lemma no_file_touched_app (a b : list Event) :
  no_file_touched (a ++ b) = no_file_touched a && no_file_touched b.
Proof. apply forallb_app. Qed.

Lemma no_file_read_app (a b : list Event) :
  no_file_read (a ++ b) = no_file_read a && no_file_read b.
Proof. apply forallb_app. Qed.

Lemma no_file_touched_read (t : list Event) :
  no_file_touched t = true -> no_file_read t = true.
Proof.
  unfold no_file_touched, no_file_read. rewrite !forallb_forall.
  intros Ht ev Hev. specialize (Ht ev Hev). destruct ev; auto.
Qed.

(** ** The second authentication *)

(** C9.  After the pre-flight validation has succeeded, the import
    workflow authenticates again.  A fault of this second call is not
    caught: [main] ends with that exception and no file has been
    touched.  When the call returns, every later remote call carries
    the identifier it returned, whatever the validation had got. *)
Theorem second_authenticate_unguarded `{World}
    (args : Args) (r r1 : Remote) (uid1 : XValue) :
  blank args = false ->
  rpc (authenticate_call (odoo_url args) (db args) (username args)
                         (password args)) r = (Ok uid1, r1) ->
  truthy uid1 = true ->
  let c := authenticate_call (odoo_url args) (db args) (username args)
                             (password args) in
  let run := main args r in
  match rpc c r1 with
  | (Raise e, r2) =>
      result_of run = Raise e /\ remote_of run = r2 /\
      rpc_calls (trace_of run) = [c; c] /\
      no_file_touched (trace_of run) = true
  | (Ok uid2, r2) =>
      exists later,
        rpc_calls (trace_of run) = c :: c :: later /\
        Forall (fun call => kw_uid call = Some uid2) later
  end.
Proof.
  intros Hblank Hauth Huid c run. subst c run.
  destruct (@main_after_validation _ args r r1 uid1 Hblank Hauth Huid)
    as [before [Hquiet [Hcalls ->]]].
  rewrite process_directory_unfold. cbv zeta.
  destruct (rpc _ r1) as [[uid2|e] r2].
  - assert (Hloop : forall names,
               Forall (fun call => kw_uid call = Some uid2)
                 (rpc_calls
                    (trace_of (for_each names
                       (process_file (directory args) (odoo_url args) (db args)
                          uid2 (password args) (debug args)) r2)))).
    { intros names.
      apply (for_each_trace
               (fun t => Forall (fun call => kw_uid call = Some uid2)
                                (rpc_calls t))).
      - constructor.
      - intros a b Ha Hb. rewrite rpc_calls_app. apply Forall_app. now split.
      - intros x r' _. apply process_file_trace. }
    destruct (os_listdir (directory args)) as [names|e].
    + specialize (Hloop names).
      destruct (for_each names _ r2) as [[res r3] t].
      unfold trace_of in *. simpl in Hloop. simpl.
      exists (rpc_calls t). split; [|exact Hloop].
      rewrite !rpc_calls_app, Hcalls. destruct (debug args); reflexivity.
    + exists []. split; [|constructor]. unfold trace_of. simpl.
      rewrite !rpc_calls_app, Hcalls. destruct (debug args); reflexivity.
  - unfold result_of, remote_of, trace_of. simpl.
    repeat split.
    + rewrite !rpc_calls_app, Hcalls. destruct (debug args); reflexivity.
    + rewrite !no_file_touched_app, Hquiet. destruct (debug args); reflexivity.
Qed.

Lemma second_authenticate_unguarded_witness :
  let w := Fixture.world Fixture.dropping in
  @result_of w _ (@main w (Fixture.args_for "/in/two") Fixture.empty)
  = Raise (Exn ProtocolError "connection refused") /\
  no_file_touched (@trace_of w _ (@main w (Fixture.args_for "/in/two")
                                    Fixture.empty)) = true.
Proof.
  intros w.
  destruct (@second_authenticate_unguarded w (Fixture.args_for "/in/two")
              Fixture.empty Fixture.validated (XInt 2) eq_refl eq_refl eq_refl)
    as [Hres [_ [_ Hquiet]]].
  split; [exact Hres | exact Hquiet].
Defined.

(** The identifier used for the calls is the one of the second
    authentication (7), not the validated one (2). *)
Example second_identifier_is_used :
  let w := Fixture.world Fixture.switching in
  map kw_uid
      (skipn 2 (rpc_calls (@trace_of w _ (@main w (Fixture.args_for "/in/one")
                                            Fixture.empty))))
  = [Some (XInt 7); Some (XInt 7); Some (XInt 7)].
Proof. reflexivity. Qed.

(** ** The directory listing *)

(** C10.  When the directory cannot be listed, the exception of
    [os.listdir] leaves both workflows, and [main] with them: no
    handler is in its way, and no file has been read.  In the import
    workflow this happens after the two authentications. *)
Theorem listing_failure_ends_run `{World}
    (args : Args) (r : Remote) (e : PyExn) :
  os_listdir (directory args) = Raise e ->
  process_directory_for_blanks (directory args) r
  = (Raise e, r,
     [EvLog DEBUG (Msg "Processing directory for blank files: {directory}"
                       [FStr (directory args)]);
      EvListdir (directory args)]) /\
  (blank args = true ->
   result_of (main args r) = Raise e /\
   no_file_read (trace_of (main args r)) = true) /\
  (forall uid r1,
      rpc (authenticate_call (odoo_url args) (db args) (username args)
                             (password args)) r = (Ok uid, r1) ->
      let run := process_directory (directory args) (odoo_url args) (db args)
                   (username args) (password args) (debug args) r in
      result_of run = Raise e /\ remote_of run = r1 /\
      no_file_read (trace_of run) = true) /\
  (forall uid1 r1 uid2 r2,
      blank args = false ->
      rpc (authenticate_call (odoo_url args) (db args) (username args)
                             (password args)) r = (Ok uid1, r1) ->
      truthy uid1 = true ->
      rpc (authenticate_call (odoo_url args) (db args) (username args)
                             (password args)) r1 = (Ok uid2, r2) ->
      result_of (main args r) = Raise e /\
      no_file_read (trace_of (main args r)) = true).
Proof.
  intros Hls.
  assert (Hblanks :
            process_directory_for_blanks (directory args) r
            = (Raise e, r,
               [EvLog DEBUG
                  (Msg "Processing directory for blank files: {directory}"
                       [FStr (directory args)]);
                EvListdir (directory args)])).
  { unfold_script. rewrite Hls. reflexivity. }
  assert (Himport : forall uid r0 r1,
             rpc (authenticate_call (odoo_url args) (db args) (username args)
                                    (password args)) r0 = (Ok uid, r1) ->
             let run := process_directory (directory args) (odoo_url args)
                          (db args) (username args) (password args)
                          (debug args) r0 in
             result_of run = Raise e /\ remote_of run = r1 /\
             no_file_read (trace_of run) = true).
  { intros uid r0 r1 Hauth. cbv zeta. rewrite process_directory_unfold.
    cbv zeta. rewrite Hauth, Hls. destruct (debug args); repeat split. }
  split; [exact Hblanks|]. split; [|split].
  - intros Hblank. rewrite (main_blank args r Hblank), Hblanks.
    split; reflexivity.
  - intros uid r1 Hauth. exact (Himport uid r r1 Hauth).
  - intros uid1 r1 uid2 r2 Hblank Hauth1 Huid Hauth2.
    destruct (@main_after_validation _ args r r1 uid1 Hblank Hauth1 Huid)
      as [before [Hquiet [_ ->]]].
    destruct (Himport uid2 r1 r2 Hauth2) as [Hres [_ Hread]].
    cbv zeta in Hres, Hread.
    destruct (process_directory _ _ _ _ _ _ r1) as [[res r3] t].
    unfold result_of, trace_of in *. simpl in *.
    split; [exact Hres|].
    rewrite no_file_read_app, Hread, (no_file_touched_read before Hquiet).
    reflexivity.
Qed.

Lemma listing_failure_ends_run_witness :
  let w := Fixture.world Fixture.healthy in
  @result_of w _ (@main w (Fixture.blank_args_for "/nowhere") Fixture.empty)
  = Raise (Exn OSError "No such file or directory") /\
  @result_of w _ (@main w (Fixture.args_for "/nowhere") Fixture.empty)
  = Raise (Exn OSError "No such file or directory").
Proof.
  intros w. split.
  - destruct (@listing_failure_ends_run w (Fixture.blank_args_for "/nowhere")
                Fixture.empty (Exn OSError "No such file or directory") eq_refl)
      as [_ [Hblank _]].
    exact (proj1 (Hblank eq_refl)).
  - destruct (@listing_failure_ends_run w (Fixture.args_for "/nowhere")
                Fixture.empty (Exn OSError "No such file or directory") eq_refl)
      as [_ [_ [_ Hmain]]].
    exact (proj1 (Hmain (XInt 2) Fixture.validated (XInt 2)
                    {| Fixture.statements := []; Fixture.staged := [];
                       Fixture.logins := 2 |} eq_refl eq_refl eq_refl eq_refl)).
Defined.

(** ** Upload and import *)

(** C8.  The upload of a file makes two remote calls, in this order:
    [create] on [account.statement.import] with the file name and the
    base64 text of the file's bytes, then [import_file_button] on the
    same model with the created identifier in a list of one element.
    Nothing ties the two together: when the second call faults after
    the first has succeeded, the remote system is left as the two calls
    made it, the error is logged, and the upload returns normally, so
    that the loop goes on with the next file.  (When [create] itself
    faults, the import is not triggered.) *)
Theorem upload_is_create_then_trigger `{World}
    (url db : Opt) (uid : XValue) (pw : Opt) (file_name file_path : string)
    (data : list byte) (r : Remote) :
  read_binary file_path = Ok data ->
  let c1 := create_call url db uid pw file_name (Base64.b64encode data) in
  let run := upload_and_import url db uid pw file_name file_path r in
  params c1
  = [xval db; uid; xval pw; XStr "account.statement.import"; XStr "create";
     XList [XStruct [("statement_filename", XStr file_name);
                     ("statement_file", XStr (Base64.b64encode data))]]] /\
  result_of run = Ok tt /\
  match rpc c1 r with
  | (Ok statement_id, r1) =>
      let c2 := import_call url db uid pw statement_id in
      params c2
      = [xval db; uid; xval pw; XStr "account.statement.import";
         XStr "import_file_button"; XList [XList [statement_id]]] /\
      rpc_calls (trace_of run) = [c1; c2] /\
      match rpc c2 r1 with
      | (Ok v, r2) =>
          run = (Ok tt, r2,
                 [EvOpen file_path "rb"; EvRpc c1 (Ok statement_id);
                  EvRpc c2 (Ok v);
                  EvLog INFO
                    (Msg "Successfully uploaded file: {file_name} to Odoo."
                         [FStr file_name])])
      | (Raise e, r2) =>
          run = (Ok tt, r2,
                 [EvOpen file_path "rb"; EvRpc c1 (Ok statement_id);
                  EvRpc c2 (Raise e);
                  EvLog ERROR
                    (Msg "Error uploading file {file_name} to Odoo: {e}"
                         [FStr file_name; FExn e])])
      end
  | (Raise e, r1) =>
      run = (Ok tt, r1,
             [EvOpen file_path "rb"; EvRpc c1 (Raise e);
              EvLog ERROR
                (Msg "Error uploading file {file_name} to Odoo: {e}"
                     [FStr file_name; FExn e])])
  end.
Proof.
  intros Hread c1 run. subst c1 run. split; [reflexivity|].
  unfold_script. rewrite Hread. cbv beta iota zeta.
  destruct (rpc (create_call _ _ _ _ _ _) r) as [[statement_id|e] r1];
    cbv beta iota zeta.
  - destruct (rpc (import_call _ _ _ _ statement_id) r1) as [[v|e] r2];
      cbv beta iota zeta; repeat split.
  - repeat split.
Qed.

Lemma upload_is_create_then_trigger_witness :
  let w := Fixture.world Fixture.no_import in
  @upload_and_import w (Some "http://odoo.example.com") (Some "mydb") (XInt 2)
    (Some "secret") "camt.053_B.xml" "/in/one/camt.053_B.xml" Fixture.validated
  = (Ok tt,
     {| Fixture.statements := [];
        Fixture.staged :=
          [(1%Z, ("camt.053_B.xml",
                  Base64.b64encode (Fixture.bytes Fixture.xml_B)))];
        Fixture.logins := 1 |},
     [EvOpen "/in/one/camt.053_B.xml" "rb";
      EvRpc (create_call (Some "http://odoo.example.com") (Some "mydb") (XInt 2)
               (Some "secret") "camt.053_B.xml"
               (Base64.b64encode (Fixture.bytes Fixture.xml_B)))
            (Ok (XInt 1));
      EvRpc (import_call (Some "http://odoo.example.com") (Some "mydb") (XInt 2)
               (Some "secret") (XInt 1))
            (Raise (Fixture.fault "import refused"));
      EvLog ERROR (Msg "Error uploading file {file_name} to Odoo: {e}"
                       [FStr "camt.053_B.xml";
                        FExn (Fixture.fault "import refused")])]).
Proof.
  intros w.
  destruct (@upload_is_create_then_trigger w (Some "http://odoo.example.com")
              (Some "mydb") (XInt 2) (Some "secret") "camt.053_B.xml"
              "/in/one/camt.053_B.xml" (Fixture.bytes Fixture.xml_B)
              Fixture.validated eq_refl) as [_ [_ [_ [_ Hrun]]]].
  exact Hrun.
Defined.

(** ** Deduplication *)

(** The two inspections of a file do not involve the remote system. *)
Lemma is_blank_local `{World} (file_path : string) (r : Remote) :
  remote_of (is_blank_camt053 file_path r) = r /\
  rpc_calls (trace_of (is_blank_camt053 file_path r)) = [].
Proof. unfold_script. world_cases. all: split; reflexivity. Qed.

Lemma extract_statement_id_local `{World} (file_name file_path : string)
    (r : Remote) :
  remote_of (extract_statement_id file_name file_path r) = r /\
  rpc_calls (trace_of (extract_statement_id file_name file_path r)) = [].
Proof. unfold_script. world_cases. all: split; reflexivity. Qed.

Lemma stages_nothing_app (a b : list Event) :
  stages_nothing (a ++ b) = stages_nothing a && stages_nothing b.
Proof. unfold stages_nothing. rewrite rpc_calls_app. apply forallb_app. Qed.

Lemma stages_nothing_quiet (t : list Event) :
  rpc_calls t = [] -> stages_nothing t = true.
Proof. unfold stages_nothing. intros ->. reflexivity. Qed.

Ltac quiet_done :=
  unfold remote_of, trace_of; cbn [fst snd];
  split; [|assumption];
  repeat rewrite stages_nothing_app;
  repeat match goal with
         | Hq : rpc_calls ?t = [] |- _ => rewrite (stages_nothing_quiet t Hq)
         end;
  reflexivity.

(** One turn of the loop in a state of the remote system in which the
    search for the file's identifier finds a match: nothing is staged,
    and what held of the remote state and is kept by the search still
    holds. *)
Lemma process_file_skips_existing `{World} (Q : Remote -> Prop)
    (d : string) (url db : Opt) (uid : XValue) (pw : Opt) (dbg : bool)
    (n : string) (r : Remote) :
  (forall s,
      result_of (extract_statement_id n (os_path_join d n) r) = Ok (Some s) ->
      exists v r1,
        rpc (search_call url db uid pw s) r = (Ok v, r1) /\
        truthy v = true /\ Q r1) ->
  Q r ->
  stages_nothing (trace_of (process_file d url db uid pw dbg n r)) = true /\
  Q (remote_of (process_file d url db uid pw dbg n r)).
Proof.
  intros Hsearch HQ.
  destruct (is_blank_local (os_path_join d n) r) as [Hbr Hbc].
  destruct (extract_statement_id_local n (os_path_join d n) r) as [Her Hec].
  cbv beta iota zeta delta [process_file bind debug_log logging ret emit].
  destruct (negb (PyStr.endswith n ".xml")); destruct dbg;
    cbv beta iota zeta; try (split; [reflexivity | exact HQ]).
  all: destruct (is_blank_camt053 (os_path_join d n) r) as [[[blank|e] rb] tb];
    unfold remote_of, trace_of in Hbr, Hbc; cbn [fst snd] in Hbr, Hbc;
    subst rb; [|quiet_done].
  all: destruct blank; cbv beta iota zeta; [quiet_done|].
  all: destruct (extract_statement_id n (os_path_join d n) r)
    as [[[found|e] re] te];
    unfold remote_of, trace_of in Her, Hec; cbn [fst snd] in Her, Hec;
    subst re; [|quiet_done].
  all: destruct found as [s|]; cbv beta iota zeta; [|quiet_done].
  all: destruct (Hsearch s eq_refl) as [v [r1 [Hcall [Hv HQ1]]]].
  all: cbv beta iota zeta delta
         [check_existing try_except bind call logging ret emit is_Exception].
  all: rewrite Hcall; cbv beta iota zeta; rewrite Hv; cbv beta iota zeta.
  all: quiet_done.
Qed.

(** A property kept by every turn of the loop, together with a property
    of the traces, is kept by the loop. *)
Lemma for_each_invariant `{World} (A : Type) (Inv : Remote -> Prop)
    (P : list Event -> Prop) (body : A -> M unit) (l : list A) :
  P [] ->
  (forall a b, P a -> P b -> P (a ++ b)%list) ->
  (forall x r, In x l -> Inv r ->
               P (trace_of (body x r)) /\ Inv (remote_of (body x r))) ->
  forall r, Inv r ->
            P (trace_of (for_each l body r)) /\
            Inv (remote_of (for_each l body r)).
Proof.
  intros Hnil Happ. induction l as [|x l IHl]; intros Hbody r Hr.
  - split; [exact Hnil | exact Hr].
  - rewrite for_each_cons.
    destruct (Hbody x r (or_introl eq_refl) Hr) as [Hx Hr1].
    destruct (body x r) as [[[[]|e] r1] t1]; [|split; assumption].
    unfold remote_of, trace_of in Hx, Hr1. cbn [fst snd] in Hx, Hr1.
    destruct (IHl (fun y r' Hy => Hbody y r' (or_intror Hy)) r1 Hr1)
      as [Hrest Hr2].
    destruct (for_each l body r1) as [[res r2] t2].
    unfold remote_of, trace_of in *. cbn [fst snd] in *.
    split; [apply Happ; assumption | exact Hr2].
Qed.

(** C2, as the code has it.  In a remote state in which the search for
    the file's identifier finds a match, the turn of the loop for that
    file creates no import record and triggers no import.  So a run of
    the import workflow on a remote system that knows the statements of
    all the files of the directory, and goes on knowing them, stages
    nothing at all.  Whether the remote system knows a statement after
    a first run is up to the remote system. *)
Theorem existing_statement_is_skipped `{World}
    (d : string) (url db user pw : Opt) (dbg : bool) :
  (forall uid n s v r r1,
      result_of (extract_statement_id n (os_path_join d n) r) = Ok (Some s) ->
      rpc (search_call url db uid pw s) r = (Ok v, r1) ->
      truthy v = true ->
      stages_nothing (trace_of (process_file d url db uid pw dbg n r)) = true) /\
  (forall (Known : Remote -> Prop) (ids names : list string) (r : Remote),
      os_listdir d = Ok names ->
      (forall n o s,
          In n names ->
          result_of (extract_statement_id n (os_path_join d n) o) = Ok (Some s) ->
          In s ids) ->
      (forall o, Known o ->
                 Known (snd (rpc (authenticate_call url db user pw) o))) ->
      (forall o uid s,
          Known o -> In s ids ->
          exists v o',
            rpc (search_call url db uid pw s) o = (Ok v, o') /\
            truthy v = true /\ Known o') ->
      Known r ->
      stages_nothing (trace_of (process_directory d url db user pw dbg r))
      = true).
Proof.
  split.
  - intros uid n s v r r1 Hext Hcall Hv.
    apply (process_file_skips_existing (fun _ => True)); [|exact I].
    intros s' Hext'. rewrite Hext in Hext'. injection Hext' as <-.
    exists v, r1. auto.
  - intros Known ids names r Hls Hids Hauth Hsearch Hr.
    rewrite process_directory_unfold. cbv zeta.
    specialize (Hauth r Hr).
    destruct (rpc (authenticate_call url db user pw) r) as [[uid|e] r1];
      [|destruct dbg; reflexivity].
    rewrite Hls. cbn [snd] in Hauth.
    destruct (for_each_invariant Known (fun t => stages_nothing t = true)
                (process_file d url db uid pw dbg) names) with (r := r1)
      as [Hloop _]; try assumption; try reflexivity.
    + intros a b Ha Hb. now rewrite stages_nothing_app, Ha, Hb.
    + intros x o Hx Ho. apply process_file_skips_existing; [|exact Ho].
      intros s Hext. apply (Hsearch o uid s Ho). exact (Hids x o s Hx Hext).
    + destruct (for_each names _ r1) as [[res r2] t].
      unfold trace_of in *. cbn [fst snd] in *.
      rewrite stages_nothing_app.
      change (EvRpc (authenticate_call url db user pw) (Ok uid) :: EvListdir d :: t)
        with ([EvRpc (authenticate_call url db user pw) (Ok uid); EvListdir d] ++ t)%list.
      rewrite stages_nothing_app, Hloop. destruct dbg; reflexivity.
Qed.

Lemma existing_statement_is_skipped_witness :
  let w := Fixture.world Fixture.healthy in
  stages_nothing
    (@trace_of w _
       (@process_file w "/in/one" (Some "http://odoo.example.com") (Some "mydb")
          (XInt 2) (Some "secret") false "camt.053_B.xml" Fixture.imported))
  = true /\
  stages_nothing
    (@trace_of w _
       (@process_directory w "/in/one" (Some "http://odoo.example.com")
          (Some "mydb") (Some "admin") (Some "secret") false Fixture.imported))
  = true.
Proof.
  intros w.
  destruct (@existing_statement_is_skipped w "/in/one"
              (Some "http://odoo.example.com") (Some "mydb") (Some "admin")
              (Some "secret") false) as [Hfile Hrun].
  split.
  - apply (Hfile (XInt 2) "camt.053_B.xml" "STMT-001" (XList [XInt 1])
             Fixture.imported Fixture.imported); reflexivity.
  - apply (Hrun (fun o => existsb (String.eqb "STMT-001") (Fixture.statements o)
                          = true)
                ["STMT-001"] ["camt.053_B.xml"] Fixture.imported).
    + reflexivity.
    + intros n o s [<-|[]] Hext. vm_compute in Hext.
      injection Hext as <-. left. reflexivity.
    + intros o Ho. exact Ho.
    + intros o uid s Ho [<-|[]]. exists (XList [XInt 1]), o.
      split; [|split; [reflexivity | exact Ho]].
      change ((if existsb (String.eqb "STMT-001") (Fixture.statements o)
               then (Ok (XList [XInt 1]), o)
               else (Ok (XList []), o))
              = (Ok (XList [XInt 1]), o)).
      rewrite Ho. reflexivity.
    + reflexivity.
Defined.

(** C2, as stated, fails.  The remote system refuses the import
    trigger.  The first run over the directory stages the statement
    STMT-001 and the second run, on the remote state the first one
    left, stages it again: the search finds no statement of that name,
    and two import records of the same statement exist in the end. *)
Lemma second_run_stages_the_statement_again :
  let w := Fixture.world Fixture.no_import in
  let first := @main w (Fixture.args_for "/in/one") Fixture.empty in
  let second := @main w (Fixture.args_for "/in/one") (@remote_of w _ first) in
  @result_of w _
    (@extract_statement_id w "camt.053_B.xml" "/in/one/camt.053_B.xml"
       Fixture.empty) = Ok (Some "STMT-001") /\
  creates_for "camt.053_B.xml" (@trace_of w _ first) = 1 /\
  creates_for "camt.053_B.xml" (@trace_of w _ second) = 1 /\
  ~ (creates_for "camt.053_B.xml"
       (@trace_of w _ first ++ @trace_of w _ second) <= 1) /\
  map (fun rec => fst (snd rec)) (Fixture.staged (@remote_of w _ second))
  = ["camt.053_B.xml"; "camt.053_B.xml"].
Proof.
  intros w first second. subst w first second.
  split; [reflexivity|]. split; [reflexivity|]. split; [reflexivity|].
  split; [|reflexivity].
  vm_compute. intros Hle. inversion Hle as [|m Hle']. inversion Hle'.
Qed.

(** On a remote system that imports what it is given, the second run
    finds the statement and stages nothing. *)
Example second_run_skips_on_healthy_remote :
  let w := Fixture.world Fixture.healthy in
  let first := @main w (Fixture.args_for "/in/one") Fixture.empty in
  let second := @main w (Fixture.args_for "/in/one") (@remote_of w _ first) in
  @remote_of w _ first = Fixture.imported /\
  creates_for "camt.053_B.xml" (@trace_of w _ first) = 1 /\
  stages_nothing (@trace_of w _ second) = true.
Proof. repeat split. Qed.

(** ** Further checks *)

(** Why C1 asks that the root be no entry: [.//] selects descendants,
    so a document that consists of one [Ntry] element is found blank. *)
Example root_entry_is_not_selected :
  findall_Ntry (Elem (qname "Ntry") None []) = [] /\
  count_tag (qname "Ntry") (Elem (qname "Ntry") None []) = 1.
Proof. split; reflexivity. Qed.

(** A file that is not blank, has an identifier and is not known to
    the remote system goes to the upload: the turn of the loop is the
    search followed by the upload. *)
Lemma process_file_uploads_new `{World}
    (d : string) (url db : Opt) (uid : XValue) (pw : Opt) (dbg : bool)
    (n s : string) (v : XValue) (r r1 : Remote) :
  PyStr.endswith n ".xml" = true ->
  result_of (is_blank_camt053 (os_path_join d n) r) = Ok false ->
  result_of (extract_statement_id n (os_path_join d n) r) = Ok (Some s) ->
  rpc (search_call url db uid pw s) r = (Ok v, r1) ->
  truthy v = false ->
  let turn := process_file d url db uid pw dbg n r in
  let upload := upload_and_import url db uid pw n (os_path_join d n) r1 in
  result_of turn = result_of upload /\
  remote_of turn = remote_of upload /\
  rpc_calls (trace_of turn)
  = search_call url db uid pw s :: rpc_calls (trace_of upload).
Proof.
  intros Hxml Hblank Hext Hcall Hv.
  destruct (is_blank_local (os_path_join d n) r) as [Hbr Hbc].
  destruct (extract_statement_id_local n (os_path_join d n) r) as [Her Hec].
  cbv beta iota zeta delta [process_file bind debug_log logging ret emit].
  rewrite Hxml. destruct dbg; cbv beta iota zeta delta [negb].
  all: destruct (is_blank_camt053 (os_path_join d n) r) as [[resb rb] tb].
  all: unfold result_of, remote_of, trace_of in Hblank, Hbr, Hbc.
  all: cbn [fst snd] in Hblank, Hbr, Hbc; subst resb rb; cbv beta iota zeta.
  all: destruct (extract_statement_id n (os_path_join d n) r) as [[rese re] te].
  all: unfold result_of, remote_of, trace_of in Hext, Her, Hec.
  all: cbn [fst snd] in Hext, Her, Hec; subst rese re; cbv beta iota zeta.
  all: cbv beta iota zeta delta
         [check_existing try_except bind call logging ret emit is_Exception].
  all: rewrite Hcall; cbv beta iota zeta; rewrite Hv; cbv beta iota zeta.
  all: destruct (upload_and_import url db uid pw n (os_path_join d n) r1)
    as [[resu ru] tu].
  all: unfold result_of, remote_of, trace_of; cbn [fst snd].
  all: repeat split.
  all: rewrite !rpc_calls_app, Hbc, Hec, ?app_nil_r; reflexivity.
Qed.

(** The scenario of two files: [camt.053_A.xml] is blank and
    [camt.053_B.xml] has one entry and the identifier STMT-001, unknown
    to the remote system.  The blank-detection workflow reports A
    only; the import workflow skips A, stages B once and triggers its
    import once. *)
Example two_files_scenario :
  let w := Fixture.world Fixture.healthy in
  let blanks := @main w (Fixture.blank_args_for "/in/two") Fixture.empty in
  let import := @main w (Fixture.args_for "/in/two") Fixture.empty in
  filter (fun ev => match ev with EvPrint _ => true | _ => false end)
         (@trace_of w _ blanks)
  = [EvPrint (Msg "Blank file detected: {file_name}" [FStr "camt.053_A.xml"])] /\
  @result_of w _ import = Ok tt /\
  creates_for "camt.053_A.xml" (@trace_of w _ import) = 0 /\
  creates_for "camt.053_B.xml" (@trace_of w _ import) = 1 /\
  List.length (filter is_import_trigger (rpc_calls (@trace_of w _ import))) = 1 /\
  Fixture.statements (@remote_of w _ import) = ["STMT-001"].
Proof. repeat split. Qed.

(* ================================================================== *)
(** * Further properties of the script *)

(** ** The blank-detection workflow *)

Lemma blanks_unfold `{World} (d : string) (r : Remote) :
  process_directory_for_blanks d r
  = let intro := EvLog DEBUG
                   (Msg "Processing directory for blank files: {directory}"
                        [FStr d]) in
    match os_listdir d with
    | Ok names =>
        let '(res, r1, t) := for_each names (inspect_for_blank d) r in
        (res, r1, intro :: EvListdir d :: t)
    | Raise e => (Raise e, r, [intro; EvListdir d])
    end.
Proof.
  cbv beta iota zeta delta
    [process_directory_for_blanks logging listdir bind ret emit lift].
  destruct (os_listdir d) as [names|e]; [|reflexivity].
  change (for_each names _ r) with (for_each names (inspect_for_blank d) r).
  destruct (for_each names (inspect_for_blank d) r) as [[res r1] t].
  reflexivity.
Qed.

Lemma for_each_app `{World} (A : Type) (l1 l2 : list A) (body : A -> M unit)
    (r : Remote) :
  for_each (l1 ++ l2) body r
  = match for_each l1 body r with
    | (Ok _, r1, t1) =>
        let '(res, r2, t2) := for_each l2 body r1 in (res, r2, (t1 ++ t2)%list)
    | (Raise e, r1, t1) => (Raise e, r1, t1)
    end.
Proof.
  revert r. induction l1 as [|x l1 IH]; intros r.
  - simpl. destruct (for_each l2 body r) as [[res r2] t2]. reflexivity.
  - rewrite <- app_comm_cons, !for_each_cons.
    destruct (body x r) as [[[[]|e] r1] t1]; [|reflexivity].
    rewrite IH. destruct (for_each l1 body r1) as [[[[]|e] r2] t2];
      [|reflexivity].
    destruct (for_each l2 body r2) as [[res r3] t3].
    now rewrite app_assoc.
Qed.

Lemma printed_app (a b : list Event) :
  printed (a ++ b) = (printed a ++ printed b)%list.
Proof. apply flat_map_app. Qed.

(** One entry of the blank-detection workflow: the remote system is
    not involved; a name that does not pass the filter is not read; a
    name that passes is parsed once and announced exactly when its
    document parses without an entry. *)
Lemma inspect_for_blank_turn `{World} (d n : string) (r : Remote) :
  let turn := inspect_for_blank d n r in
  remote_of turn = r /\
  rpc_calls (trace_of turn) = [] /\
  parsed (trace_of turn)
  = (if is_camt053_name n then [os_path_join d n] else []) /\
  (forall root, parse_outcome (os_path_join d n) = Ok root ->
                result_of turn = Ok tt) /\
  (forall e, parse_outcome (os_path_join d n) = Raise e ->
             is_camt053_name n = true ->
             result_of turn = (if is_ParseError e then Ok tt else Raise e)) /\
  (is_camt053_name n = false -> result_of turn = Ok tt) /\
  printed (trace_of turn)
  = (if is_camt053_name n && is_blank_document (os_path_join d n)
     then [Msg "Blank file detected: {file_name}" [FStr n]] else []).
Proof.
  unfold is_camt053_name, is_blank_document, parse_outcome.
  cbv beta iota zeta delta
    [inspect_for_blank is_blank_camt053 ET_parse_path logging print bind ret
     emit lift try_except result_of remote_of trace_of fst snd].
  destruct (negb (PyStr.startswith (PyStr.lower n) "camt.053")
            || negb (PyStr.endswith n ".xml")); cbv beta iota zeta delta [negb andb].
  - repeat split; intros; try reflexivity; discriminate.
  - destruct (read_binary (os_path_join d n)) as [data|e]; cbv beta iota zeta.
    + destruct (XMLParser data) as [root|e]; cbv beta iota zeta.
      * destruct (findall_Ntry root); cbv beta iota zeta;
          repeat split; intros; try reflexivity; discriminate.
      * destruct (is_ParseError e) eqn:He; cbv beta iota zeta;
          repeat split; intros; try reflexivity; try discriminate.
        all: match goal with
             | Hq : Raise _ = Raise _ |- _ => injection Hq as <-
             end; rewrite He; reflexivity.
    + destruct (is_ParseError e) eqn:He; cbv beta iota zeta;
        repeat split; intros; try reflexivity; try discriminate.
      all: match goal with
           | Hq : Raise _ = Raise _ |- _ => injection Hq as <-
           end; rewrite He; reflexivity.
Qed.

Lemma xml_or_malformed_outcome `{World} (p : string) :
  xml_or_malformed p = true ->
  (exists root, parse_outcome p = Ok root) \/
  (exists e, parse_outcome p = Raise e /\ is_ParseError e = true).
Proof.
  unfold xml_or_malformed, parse_outcome.
  destruct (read_binary p) as [data|e]; [|discriminate].
  destruct (XMLParser data) as [root|e]; intros Hp.
  - left. now exists root.
  - right. now exists e.
Qed.

Lemma inspect_for_blank_returns `{World} (d n : string) (r : Remote) :
  negb (is_camt053_name n) || xml_or_malformed (os_path_join d n) = true ->
  result_of (inspect_for_blank d n r) = Ok tt.
Proof.
  intros Hn.
  destruct (inspect_for_blank_turn d n r) as [_ [_ [_ [Hok [Hraise [Hskip _]]]]]].
  destruct (is_camt053_name n) eqn:Hname; [|now apply Hskip].
  simpl in Hn. destruct (xml_or_malformed_outcome _ Hn) as [[root Hp]|[e [Hp He]]].
  - exact (Hok root Hp).
  - rewrite (Hraise e Hp eq_refl), He. reflexivity.
Qed.

(** The loop of the blank-detection workflow over entries that can be
    read. *)
Lemma blank_loop_completes `{World} (d : string) (names : list string) :
  forallb (fun n => negb (is_camt053_name n)
                    || xml_or_malformed (os_path_join d n)) names = true ->
  forall r,
    let run := for_each names (inspect_for_blank d) r in
    result_of run = Ok tt /\
    printed (trace_of run)
    = map (fun n => Msg "Blank file detected: {file_name}" [FStr n])
          (filter (fun n => is_camt053_name n
                            && is_blank_document (os_path_join d n)) names) /\
    parsed (trace_of run)
    = map (os_path_join d) (filter is_camt053_name names).
Proof.
  induction names as [|x names IH]; intros Hfiles r.
  - repeat split.
  - simpl in Hfiles. apply andb_true_iff in Hfiles as [Hx Hrest].
    specialize (IH Hrest). cbv zeta. rewrite for_each_cons.
    pose proof (inspect_for_blank_returns d x r Hx) as Hret.
    destruct (inspect_for_blank_turn d x r) as [_ [_ [Hparsed [_ [_ [_ Hprint]]]]]].
    destruct (inspect_for_blank d x r) as [[res r1] t1].
    unfold result_of, trace_of in Hret, Hparsed, Hprint.
    cbn [fst snd] in Hret, Hparsed, Hprint. subst res.
    specialize (IH r1). cbv zeta in IH. destruct IH as [IHres [IHprint IHparsed]].
    destruct (for_each names (inspect_for_blank d) r1) as [[res r2] t2].
    unfold result_of, trace_of in *. cbn [fst snd] in *.
    split; [exact IHres|]. split.
    + rewrite printed_app, Hprint, IHprint. cbn [filter].
      destruct (is_camt053_name x && is_blank_document (os_path_join d x));
        reflexivity.
    + rewrite parsed_app, Hparsed, IHparsed. cbn [filter].
      destruct (is_camt053_name x); reflexivity.
Qed.

(** X1.  With [--blank], [main] makes no remote call at all, whatever
    the connection options are, and leaves the remote system as it
    was. *)
Theorem blank_detection_never_connects `{World} (args : Args) (r : Remote) :
  blank args = true ->
  rpc_calls (trace_of (main args r)) = [] /\ remote_of (main args r) = r.
Proof.
  intros Hblank. rewrite (main_blank args r Hblank), blanks_unfold. cbv zeta.
  destruct (os_listdir (directory args)) as [names|e]; [|split; reflexivity].
  destruct (for_each_invariant (fun o => o = r) (fun t => rpc_calls t = [])
              (inspect_for_blank (directory args)) names) with (r := r)
    as [Hcalls Hremote]; try reflexivity.
  - intros a b Ha Hb. now rewrite rpc_calls_app, Ha, Hb.
  - intros x o _ ->.
    destruct (inspect_for_blank_turn (directory args) x r) as [Hr [Hc _]].
    split; assumption.
  - destruct (for_each names _ r) as [[res r1] t].
    unfold remote_of, trace_of in *. cbn [fst snd] in *.
    split; assumption.
Qed.

Lemma blank_detection_never_connects_witness :
  rpc_calls (@trace_of (Fixture.world Fixture.rejecting) _
               (@main (Fixture.world Fixture.rejecting)
                  (Fixture.blank_args_for "/in/mix") Fixture.empty)) = [] /\
  @remote_of (Fixture.world Fixture.rejecting) _
    (@main (Fixture.world Fixture.rejecting)
       (Fixture.blank_args_for "/in/mix") Fixture.empty) = Fixture.empty.
Proof.
  apply (@blank_detection_never_connects (Fixture.world Fixture.rejecting)
           (Fixture.blank_args_for "/in/mix") Fixture.empty).
  reflexivity.
Defined.

(** X2.  When for every entry that passes the name filter [ET.parse]
    of the file returns a tree or raises [ParseError] (for no such
    entry does the read fail or the parser raise another exception),
    the blank-detection workflow ends normally, parses the entries
    that pass the filter, in the order of the listing, and prints one
    line for each of them whose document parses without an entry, and
    nothing else: a file whose parse raises [ParseError] is not
    announced as blank. *)
Theorem blank_report_lists_the_blank_files `{World}
    (d : string) (names : list string) (r : Remote) :
  os_listdir d = Ok names ->
  forallb (fun n => negb (is_camt053_name n)
                    || xml_or_malformed (os_path_join d n)) names = true ->
  let run := process_directory_for_blanks d r in
  result_of run = Ok tt /\
  printed (trace_of run)
  = map (fun n => Msg "Blank file detected: {file_name}" [FStr n])
        (filter (fun n => is_camt053_name n
                          && is_blank_document (os_path_join d n)) names) /\
  parsed (trace_of run) = map (os_path_join d) (filter is_camt053_name names).
Proof.
  intros Hls Hfiles. cbv zeta. rewrite blanks_unfold. cbv zeta. rewrite Hls.
  destruct (blank_loop_completes d names Hfiles r) as [Hres [Hprint Hparsed]].
  destruct (for_each names (inspect_for_blank d) r) as [[res r1] t].
  unfold result_of, trace_of in *. cbn [fst snd] in *.
  repeat split; assumption.
Qed.

Lemma blank_report_lists_the_blank_files_witness :
  let w := Fixture.world Fixture.healthy in
  printed (@trace_of w _ (@process_directory_for_blanks w "/in/mix" Fixture.empty))
  = [Msg "Blank file detected: {file_name}" [FStr "camt.053_A.xml"]].
Proof.
  intros w.
  destruct (@blank_report_lists_the_blank_files w "/in/mix"
              ["notes.txt"; "broken.xml"; "camt.053_A.xml"; "camt.053_B.xml"]
              Fixture.empty eq_refl eq_refl) as [_ [Hprint _]].
  exact Hprint.
Defined.

(** ** Entries that cannot be read *)

(** The loop ends at the first turn that raises; the entries after it
    are not begun. *)
Lemma for_each_stops `{World} (A : Type) (pre post : list A) (k : A)
    (body : A -> M unit) (e : PyExn) :
  (forall x r, In x pre -> result_of (body x r) = Ok tt) ->
  (forall r, result_of (body k r) = Raise e) ->
  forall r,
    let before := for_each pre body r in
    let run := for_each (pre ++ k :: post) body r in
    result_of run = Raise e /\
    trace_of run
    = (trace_of before ++ trace_of (body k (remote_of before)))%list.
Proof.
  intros Hpre Hk r. cbv zeta. rewrite for_each_app.
  assert (Hbefore : result_of (for_each pre body r) = Ok tt).
  { clear Hk. revert r. induction pre as [|x pre IH]; intros r; [reflexivity|].
    rewrite for_each_cons.
    pose proof (Hpre x r (or_introl eq_refl)) as Hx.
    destruct (body x r) as [[res r1] t1]. unfold result_of in Hx. cbn in Hx.
    subst res.
    specialize (IH (fun y r' Hy => Hpre y r' (or_intror Hy)) r1).
    destruct (for_each pre body r1) as [[res r2] t2]. exact IH. }
  destruct (for_each pre body r) as [[res r1] t1].
  unfold result_of in Hbefore. cbn in Hbefore. subst res.
  rewrite for_each_cons. specialize (Hk r1).
  unfold result_of, remote_of, trace_of. cbn [fst snd].
  destruct (body k r1) as [[res r2] t2]. unfold result_of in Hk. cbn in Hk.
  subst res. split; reflexivity.
Qed.

Lemma process_file_raises `{World}
    (d : string) (url db : Opt) (uid : XValue) (pw : Opt) (dbg : bool)
    (k : string) (e : PyExn) (r : Remote) :
  PyStr.endswith k ".xml" = true ->
  parse_outcome (os_path_join d k) = Raise e ->
  is_ParseError e = false ->
  result_of (process_file d url db uid pw dbg k r) = Raise e.
Proof.
  unfold parse_outcome. intros Hxml Hp He. unfold_script. rewrite Hxml.
  destruct (read_binary (os_path_join d k)) as [data|e'].
  - rewrite Hp, He. destruct dbg; reflexivity.
  - injection Hp as ->. rewrite He. destruct dbg; reflexivity.
Qed.

(** X3.  The blankness check only catches [ParseError].  When an entry
    that passes the name filter cannot be read (or the parser raises
    something else than [ParseError]), the blank-detection workflow
    ends with that exception: the entries before it have been
    reported, the entries after it are not inspected. *)
Theorem blank_detection_stops_at_unreadable_entry `{World}
    (d : string) (pre post : list string) (k : string) (e : PyExn)
    (r : Remote) :
  os_listdir d = Ok (pre ++ k :: post)%list ->
  forallb (fun n => negb (is_camt053_name n)
                    || xml_or_malformed (os_path_join d n)) pre = true ->
  is_camt053_name k = true ->
  parse_outcome (os_path_join d k) = Raise e ->
  is_ParseError e = false ->
  let run := process_directory_for_blanks d r in
  result_of run = Raise e /\
  parsed (trace_of run)
  = (map (os_path_join d) (filter is_camt053_name pre) ++ [os_path_join d k])%list /\
  printed (trace_of run)
  = map (fun n => Msg "Blank file detected: {file_name}" [FStr n])
        (filter (fun n => is_camt053_name n
                          && is_blank_document (os_path_join d n)) pre).
Proof.
  intros Hls Hpre Hname Hp He. cbv zeta. rewrite blanks_unfold. cbv zeta.
  rewrite Hls.
  assert (Hk : forall r', result_of (inspect_for_blank d k r') = Raise e).
  { intros r'.
    destruct (inspect_for_blank_turn d k r') as [_ [_ [_ [_ [Hraise _]]]]].
    rewrite (Hraise e Hp Hname), He. reflexivity. }
  destruct (for_each_stops pre post k (inspect_for_blank d) (e := e)) with (r := r)
    as [Hres Htrace]; [|exact Hk|].
  { intros x r' Hx. apply inspect_for_blank_returns.
    rewrite forallb_forall in Hpre. exact (Hpre x Hx). }
  destruct (blank_loop_completes d pre Hpre r) as [_ [Hprint Hparsed]].
  cbv zeta in Hprint, Hparsed.
  destruct (inspect_for_blank_turn d k (remote_of (for_each pre (inspect_for_blank d) r)))
    as [_ [_ [Hkparsed [_ [_ [_ Hkprint]]]]]].
  cbv zeta in Htrace.
  destruct (for_each (pre ++ k :: post) (inspect_for_blank d) r) as [[res r1] t].
  unfold result_of, trace_of in Hres, Htrace |- *. cbn [fst snd] in Hres, Htrace |- *.
  subst t. split; [exact Hres|].
  cbn [parsed printed flat_map app].
  fold (parsed (trace_of (for_each pre (inspect_for_blank d) r) ++
                trace_of (inspect_for_blank d k
                            (remote_of (for_each pre (inspect_for_blank d) r)))))%list.
  fold (printed (trace_of (for_each pre (inspect_for_blank d) r) ++
                 trace_of (inspect_for_blank d k
                             (remote_of (for_each pre (inspect_for_blank d) r)))))%list.
  rewrite parsed_app, printed_app.
  unfold trace_of in *. rewrite Hparsed, Hprint, Hkparsed, Hkprint, Hname.
  unfold is_blank_document. rewrite Hp. cbn [andb]. rewrite app_nil_r.
  split; reflexivity.
Qed.

Lemma blank_detection_stops_at_unreadable_entry_witness :
  @result_of Shelf.world _
    (@process_directory_for_blanks Shelf.world "/in/gap" Fixture.empty)
  = Raise (Exn OSError "Is a directory") /\
  parsed (@trace_of Shelf.world _
            (@process_directory_for_blanks Shelf.world "/in/gap" Fixture.empty))
  = ["/in/gap/camt.053_A.xml"; "/in/gap/camt.053_dir.xml"].
Proof.
  destruct (@blank_detection_stops_at_unreadable_entry Shelf.world "/in/gap"
              ["camt.053_A.xml"] ["camt.053_B.xml"] "camt.053_dir.xml"
              (Exn OSError "Is a directory") Fixture.empty
              eq_refl eq_refl eq_refl eq_refl eq_refl) as [Hres [Hparsed _]].
  split; [exact Hres | exact Hparsed].
Defined.

(** X4.  The same holds of the import workflow: an [.xml] entry that
    cannot be read ends the run with the exception of the read, after
    the entries before it have been processed; the entries after it
    are not begun. *)
Theorem import_stops_at_unreadable_entry `{World}
    (d : string) (url db user pw : Opt) (dbg : bool)
    (pre post : list string) (k : string) (e : PyExn) (uid : XValue)
    (r r1 : Remote) :
  rpc (authenticate_call url db user pw) r = (Ok uid, r1) ->
  os_listdir d = Ok (pre ++ k :: post)%list ->
  forallb (fun n => negb (PyStr.endswith n ".xml")
                    || xml_or_malformed (os_path_join d n)) pre = true ->
  PyStr.endswith k ".xml" = true ->
  parse_outcome (os_path_join d k) = Raise e ->
  is_ParseError e = false ->
  let run := process_directory d url db user pw dbg r in
  result_of run = Raise e /\
  parsed (trace_of run)
  = (map (os_path_join d) (filter (fun n => PyStr.endswith n ".xml") pre)
     ++ [os_path_join d k])%list.
Proof.
  intros Hauth Hls Hpre Hxml Hp He. cbv zeta.
  rewrite process_directory_unfold. cbv zeta. rewrite Hauth, Hls.
  destruct (for_each_stops pre post k (process_file d url db uid pw dbg) (e := e))
    with (r := r1) as [Hres Htrace].
  { intros x r' Hx. apply process_file_returns.
    rewrite forallb_forall in Hpre. exact (Hpre x Hx). }
  { intros r'. now apply process_file_raises. }
  destruct (import_loop_completes d url db uid pw dbg pre Hpre r1)
    as [_ [Hparsed _]].
  cbv zeta in Hparsed, Htrace.
  destruct (process_file_trace d url db uid pw dbg k
              (remote_of (for_each pre (process_file d url db uid pw dbg) r1)))
    as [Hkparsed _].
  cbv zeta in Hkparsed. rewrite Hxml in Hkparsed.
  destruct (for_each (pre ++ k :: post) (process_file d url db uid pw dbg) r1)
    as [[res r2] t].
  unfold result_of, trace_of in Hres, Htrace |- *.
  cbn [fst snd] in Hres, Htrace |- *. subst t.
  split; [exact Hres|].
  rewrite parsed_app.
  change (EvRpc (authenticate_call url db user pw) (Ok uid) :: EvListdir d :: ?t)
    with ([EvRpc (authenticate_call url db user pw) (Ok uid); EvListdir d] ++ t)%list.
  rewrite !parsed_app. unfold trace_of in *. rewrite Hparsed, Hkparsed.
  destruct dbg; reflexivity.
Qed.

Lemma import_stops_at_unreadable_entry_witness :
  @result_of Shelf.world _
    (@process_directory Shelf.world "/in/gap" (Some "http://odoo.example.com")
       (Some "mydb") (Some "admin") (Some "secret") false Fixture.empty)
  = Raise (Exn OSError "Is a directory") /\
  parsed (@trace_of Shelf.world _
            (@process_directory Shelf.world "/in/gap"
               (Some "http://odoo.example.com") (Some "mydb") (Some "admin")
               (Some "secret") false Fixture.empty))
  = ["/in/gap/camt.053_A.xml"; "/in/gap/camt.053_dir.xml"].
Proof.
  destruct (@import_stops_at_unreadable_entry Shelf.world "/in/gap"
              (Some "http://odoo.example.com") (Some "mydb") (Some "admin")
              (Some "secret") false ["camt.053_A.xml"] ["camt.053_B.xml"]
              "camt.053_dir.xml" (Exn OSError "Is a directory") (XInt 2)
              Fixture.empty Fixture.validated
              eq_refl eq_refl eq_refl eq_refl eq_refl eq_refl)
    as [Hres Hparsed].
  split; [exact Hres | exact Hparsed].
Defined.

(** ** White space around the statement identifier *)

Lemma lstrip_spec (l : list ascii) :
  exists pre,
    l = (pre ++ PyStr.lstrip l)%list /\
    forallb PyStr.isspace pre = true /\
    match PyStr.lstrip l with
    | [] => True
    | c :: _ => PyStr.isspace c = false
    end.
Proof.
  induction l as [|c l [pre [Hl [Hpre Hhead]]]].
  - exists []. repeat split.
  - simpl. destruct (PyStr.isspace c) eqn:Hc.
    + exists (c :: pre). simpl. rewrite Hc, Hpre. repeat split; [|exact Hhead].
      now rewrite <- Hl.
    + exists []. repeat split. exact Hc.
Qed.

Lemma lstrip_fixed (l : list ascii) :
  match l with [] => True | c :: _ => PyStr.isspace c = false end ->
  PyStr.lstrip l = l.
Proof. destruct l as [|c l]; [reflexivity|]. simpl. now intros ->. Qed.

Lemma forallb_rev (A : Type) (f : A -> bool) (l : list A) :
  forallb f (rev l) = forallb f l.
Proof.
  induction l as [|x l IH]; [reflexivity|].
  simpl. rewrite forallb_app, IH. simpl. rewrite andb_true_r. apply andb_comm.
Qed.

(** What [strip] returns is the text without some white space at its
    ends, and has no white space at its ends. *)
Lemma strip_shape (s : string) :
  (exists pre post,
      PyStr.chars s = (pre ++ PyStr.chars (PyStr.strip s) ++ post)%list /\
      forallb PyStr.isspace pre = true /\
      forallb PyStr.isspace post = true) /\
  outer_space_free (PyStr.chars (PyStr.strip s)) = true.
Proof.
  unfold PyStr.strip. rewrite !chars_of_chars.
  destruct (lstrip_spec (PyStr.chars s)) as [pre [Hl [Hpre Hhead]]].
  remember (PyStr.lstrip (PyStr.chars s)) as l1 eqn:El1. clear El1.
  destruct (lstrip_spec (rev l1)) as [pre2 [Hl2 [Hpre2 Hhead2]]].
  remember (PyStr.lstrip (rev l1)) as l2 eqn:El2. clear El2.
  assert (Hl1 : l1 = (rev l2 ++ rev pre2)%list).
  { rewrite <- (rev_involutive l1), Hl2. apply rev_app_distr. }
  split.
  - exists pre, (rev pre2). split; [|split].
    + rewrite Hl at 1. now rewrite Hl1.
    + exact Hpre.
    + now rewrite forallb_rev.
  - destruct l2 as [|c l2']; [reflexivity|].
    unfold outer_space_free.
    destruct (rev (c :: l2')) as [|c' tl] eqn:Hrev; [reflexivity|].
    rewrite <- Hrev. simpl rev. rewrite last_last, Hhead2.
    rewrite Hl1 in Hhead. simpl in Hhead. rewrite Hhead. reflexivity.
Qed.

Lemma hd_rev_last (A : Type) (l : list A) (d : A) : hd d (rev l) = last l d.
Proof.
  induction l as [|a l IH]; [reflexivity|].
  simpl rev. destruct l as [|b l]; [reflexivity|].
  change (last (a :: b :: l) d) with (last (b :: l) d). rewrite <- IH.
  destruct (rev (b :: l)) as [|x t] eqn:Hrev; [|reflexivity].
  apply (f_equal (@List.length A)) in Hrev. rewrite length_rev in Hrev.
  discriminate Hrev.
Qed.

(** X5.  [strip] only takes white space away, from both ends, and what
    it returns neither begins nor ends with white space; stripping
    again changes nothing. *)
Theorem strip_removes_outer_white_space (s : string) :
  (exists pre post,
      PyStr.chars s = (pre ++ PyStr.chars (PyStr.strip s) ++ post)%list /\
      forallb PyStr.isspace pre = true /\
      forallb PyStr.isspace post = true) /\
  outer_space_free (PyStr.chars (PyStr.strip s)) = true /\
  PyStr.strip (PyStr.strip s) = PyStr.strip s.
Proof.
  destruct (strip_shape s) as [Hparts Hfree].
  split; [exact Hparts|]. split; [exact Hfree|].
  remember (PyStr.strip s) as t eqn:Et.
  rewrite <- (of_chars_chars t) at 2.
  unfold PyStr.strip at 1. f_equal.
  remember (PyStr.chars t) as l eqn:El. clear Et El Hparts.
  destruct l as [|c l]; [reflexivity|].
  unfold outer_space_free in Hfree.
  apply andb_true_iff in Hfree as [Hfirst Hlast].
  apply negb_true_iff in Hfirst, Hlast.
  rewrite (lstrip_fixed (c :: l)) by exact Hfirst.
  rewrite lstrip_fixed; [apply rev_involutive|].
  pose proof (hd_rev_last (c :: l) c) as Hhd.
  destruct (rev (c :: l)) as [|x tl]; [exact I|].
  simpl in Hhd. now rewrite Hhd.
Qed.

(** ** The two inspections of a file *)

(** X6.  The blankness check answers true only for a file that parsed
    and has no entry below its root; the only exceptions that leave it
    are those of the read or the parser that are no [ParseError]; it
    makes no remote call. *)
Theorem is_blank_outcome `{World} (file_path : string) (r : Remote) :
  let run := is_blank_camt053 file_path r in
  remote_of run = r /\
  rpc_calls (trace_of run) = [] /\
  (result_of run = Ok true <->
   exists root, parse_outcome file_path = Ok root /\ findall_Ntry root = []) /\
  (forall e, result_of run = Raise e <->
             parse_outcome file_path = Raise e /\ is_ParseError e = false).
Proof.
  unfold parse_outcome. unfold_script.
  destruct (read_binary file_path) as [data|e0]; cbv beta iota zeta;
    [destruct (XMLParser data) as [root|e0]; cbv beta iota zeta;
     [destruct (findall_Ntry root) as [|x l] eqn:Hfind; cbv beta iota zeta|]|].
  3, 4: destruct (is_ParseError e0) eqn:He0; cbv beta iota zeta.
  all: repeat split; try discriminate; intros.
  all: repeat match goal with
              | Hq : exists _, _ |- _ => destruct Hq
              | Hq : _ /\ _ |- _ => destruct Hq
              | Hq : Ok _ = Ok _ |- _ => injection Hq as <-
              | Hq : Raise _ = Raise _ |- _ => injection Hq as <-
              end.
  all: try congruence; eauto.
Qed.

(** X7.  The extraction of the statement identifier never raises and
    makes no remote call.  It yields an identifier exactly when the
    file can be read as text, parses, and has an identifier node with
    non-empty text; the identifier is that text, stripped, so it
    neither begins nor ends with white space.  In every other case an
    error is logged. *)
Theorem extract_statement_id_outcome `{World}
    (file_name file_path : string) (r : Remote) :
  let run := extract_statement_id file_name file_path r in
  remote_of run = r /\
  rpc_calls (trace_of run) = [] /\
  (exists found, result_of run = Ok found) /\
  (forall s,
      result_of run = Ok (Some s) <->
      exists data root node txt,
        read_binary file_path = Ok data /\
        XMLParser_utf8 data = Ok root /\
        find_Stmt_Id root = Some node /\
        text node = Some txt /\ txt <> "" /\ s = PyStr.strip txt) /\
  (forall s, result_of run = Ok (Some s) ->
             outer_space_free (PyStr.chars s) = true) /\
  (result_of run = Ok None ->
   exists m, In (EvLog ERROR m) (trace_of run)).
Proof.
  unfold_script.
  destruct (read_binary file_path) as [data|e0] eqn:Hread; cbv beta iota zeta;
    [destruct (XMLParser_utf8 data) as [root|e0] eqn:Hparse; cbv beta iota zeta;
     [destruct (find_Stmt_Id root) as [node|] eqn:Hfind; cbv beta iota zeta;
      [destruct (text node) as [[|c txt]|] eqn:Htext; cbv beta iota zeta|]|]|].
  all: repeat split; try discriminate; intros; eauto.
  all: repeat match goal with
              | Hq : exists _, _ |- _ => destruct Hq
              | Hq : _ /\ _ |- _ => destruct Hq
              | Hq : Ok _ = Ok _ |- _ => injection Hq as <-
              | Hq : Some _ = Some _ |- _ => injection Hq as <-
              | Hq : Raise _ = Raise _ |- _ => injection Hq as <-
              end.
  all: try congruence.
  all: try (eexists; find_event; fail).
  - exists data, root, node, (String c txt). repeat split; congruence.
  - apply strip_shape.
Qed.

Lemma select_child_In (t : string) (ctx : list Element) (node : Element) :
  In node (ET.select_child t ctx) <->
  exists e, In e ctx /\ In node (children e) /\ tag node = t.
Proof.
  unfold ET.select_child. rewrite in_flat_map. split.
  - intros [e [He Hnode]]. apply filter_In in Hnode as [Hin Htag].
    exists e. repeat split; try assumption. now apply String.eqb_eq.
  - intros [e [He [Hin Htag]]]. exists e. split; [exact He|].
    apply filter_In. split; [exact Hin|]. now apply String.eqb_eq.
Qed.

Lemma select_descendant_root_In (t : string) (root e : Element) :
  In e (ET.select_descendant t [root]) <->
  In e (ET.descendants root) /\ tag e = t.
Proof.
  unfold ET.select_descendant. simpl. rewrite app_nil_r, filter_In.
  unfold ET.has_tag. now rewrite String.eqb_eq.
Qed.

(** X8.  The node found for [.//ns:Stmt/ns:Id] is an [Id] child, in the
    namespace, of a [Stmt] element below the root; nothing is found
    exactly when no [Stmt] element below the root has such a child.
    The root itself is not a candidate [Stmt]. *)
Theorem find_Stmt_Id_characterised (root : Element) :
  (forall node,
      find_Stmt_Id root = Some node ->
      tag node = qname "Id" /\
      exists stmt, In stmt (ET.descendants root) /\ tag stmt = qname "Stmt" /\
                   In node (children stmt)) /\
  (find_Stmt_Id root = None <->
   forall stmt node,
     In stmt (ET.descendants root) -> tag stmt = qname "Stmt" ->
     In node (children stmt) -> tag node <> qname "Id").
Proof.
  unfold find_Stmt_Id. split.
  - intros node Hfind.
    assert (Hin : In node (ET.select_child (qname "Id")
                             (ET.select_descendant (qname "Stmt") [root]))).
    { destruct (ET.select_child _ _) as [|x l]; [discriminate|].
      injection Hfind as ->. now left. }
    apply select_child_In in Hin as [stmt [Hstmt [Hchild Htag]]].
    apply select_descendant_root_In in Hstmt as [Hdesc Hstag].
    split; [exact Htag|]. now exists stmt.
  - split.
    + intros Hnone stmt node Hdesc Hstag Hchild Htag.
      assert (Hin : In node (ET.select_child (qname "Id")
                               (ET.select_descendant (qname "Stmt") [root]))).
      { apply select_child_In. exists stmt. repeat split; try assumption.
        now apply select_descendant_root_In. }
      destruct (ET.select_child _ _); [destruct Hin | discriminate].
    + intros Hall.
      destruct (ET.select_child (qname "Id")
                  (ET.select_descendant (qname "Stmt") [root]))
        as [|node l] eqn:Hsel; [reflexivity|].
      assert (Hin : In node (ET.select_child (qname "Id")
                               (ET.select_descendant (qname "Stmt") [root])))
        by (rewrite Hsel; now left).
      apply select_child_In in Hin as [stmt [Hstmt [Hchild Htag]]].
      apply select_descendant_root_In in Hstmt as [Hdesc Hstag].
      exfalso. exact (Hall stmt node Hdesc Hstag Hchild Htag).
Qed.

(** ** The remote calls made for one file *)

Ltac calls_done :=
  unfold result_of, remote_of, trace_of; cbn [fst snd];
  repeat rewrite rpc_calls_app;
  repeat match goal with
         | Hq : rpc_calls ?t = [] |- _ => rewrite Hq
         end;
  try reflexivity.

(** The turn of the loop for a file does one of three things.  It
    makes no remote call (the name does not end in [.xml], or the file
    is blank or could not be inspected, or no identifier was found).
    Or it searches for the identifier and stops there (a match, or a
    fault).  Or the search finds nothing and the upload follows. *)
Lemma process_file_shape `{World}
    (d : string) (url db : Opt) (uid : XValue) (pw : Opt) (dbg : bool)
    (n : string) (r : Remote) :
  let p := os_path_join d n in
  let turn := process_file d url db uid pw dbg n r in
  (~ (PyStr.endswith n ".xml" = true /\
      result_of (is_blank_camt053 p r) = Ok false /\
      exists s, result_of (extract_statement_id n p r) = Ok (Some s)) /\
   rpc_calls (trace_of turn) = [] /\ remote_of turn = r) \/
  (exists s reply r1,
      PyStr.endswith n ".xml" = true /\
      result_of (is_blank_camt053 p r) = Ok false /\
      result_of (extract_statement_id n p r) = Ok (Some s) /\
      rpc (search_call url db uid pw s) r = (reply, r1) /\
      match reply with Ok v => truthy v = true | Raise _ => True end /\
      rpc_calls (trace_of turn) = [search_call url db uid pw s] /\
      remote_of turn = r1 /\ result_of turn = Ok tt) \/
  (exists s v r1,
      PyStr.endswith n ".xml" = true /\
      result_of (is_blank_camt053 p r) = Ok false /\
      result_of (extract_statement_id n p r) = Ok (Some s) /\
      rpc (search_call url db uid pw s) r = (Ok v, r1) /\
      truthy v = false /\
      let upload := upload_and_import url db uid pw n p r1 in
      rpc_calls (trace_of turn)
      = search_call url db uid pw s :: rpc_calls (trace_of upload) /\
      remote_of turn = remote_of upload /\
      result_of turn = result_of upload).
Proof.
  cbv zeta.
  destruct (is_blank_local (os_path_join d n) r) as [Hbr Hbc].
  destruct (extract_statement_id_local n (os_path_join d n) r) as [Her Hec].
  cbv beta iota zeta delta [process_file bind debug_log logging ret emit].
  destruct (PyStr.endswith n ".xml") eqn:Hxml; cbv beta iota zeta delta [negb].
  2: { left. split; [intros [Hq _]; discriminate Hq|].
       destruct dbg; split; reflexivity. }
  destruct dbg; cbv beta iota zeta.
  all: destruct (is_blank_camt053 (os_path_join d n) r) as [[[[|]|e] rb] tb];
    unfold remote_of, trace_of in Hbr, Hbc; cbn [fst snd] in Hbr, Hbc; subst rb;
    cbv beta iota zeta.
  all: try (left; split;
            [intros [_ [Hq _]]; discriminate Hq | split; calls_done]; fail).
  all: destruct (extract_statement_id n (os_path_join d n) r)
    as [[[[s|]|e] re] te];
    unfold remote_of, trace_of in Her, Hec; cbn [fst snd] in Her, Hec; subst re;
    cbv beta iota zeta.
  all: try (left; split;
            [intros [_ [_ [s0 Hq]]]; discriminate Hq | split; calls_done]; fail).
  all: right.
  all: cbv beta iota zeta delta
         [check_existing try_except bind call logging ret emit is_Exception].
  all: destruct (rpc (search_call url db uid pw s) r) as [[v|e] r1] eqn:Hcall;
    cbv beta iota zeta; [destruct (truthy v) eqn:Hv; cbv beta iota zeta|].
  all: try (match goal with
            | Hc : rpc _ _ = (?reply, ?r2) |- _ =>
                left; exists s, reply, r2;
                repeat split; calls_done; try assumption
            end; fail).
  all: match goal with
       | Hc : rpc _ _ = (Ok ?v0, ?r2) |- _ =>
           right; exists s, v0, r2;
           destruct (upload_and_import url db uid pw n (os_path_join d n) r2)
             as [[resu ru] tu];
           repeat split; calls_done; try assumption
       end.
Qed.

(** The upload makes no call, or [create] alone, or [create] and the
    import trigger; it never raises. *)
Lemma upload_shape `{World}
    (url db : Opt) (uid : XValue) (pw : Opt) (n p : string) (r : Remote) :
  let upload := upload_and_import url db uid pw n p r in
  result_of upload = Ok tt /\
  (rpc_calls (trace_of upload) = [] \/
   (exists data,
       read_binary p = Ok data /\
       (rpc_calls (trace_of upload)
        = [create_call url db uid pw n (Base64.b64encode data)] \/
        exists id,
          rpc_calls (trace_of upload)
          = [create_call url db uid pw n (Base64.b64encode data);
             import_call url db uid pw id]))).
Proof.
  unfold_script.
  destruct (read_binary p) as [data|e]; cbv beta iota zeta;
    [|split; [reflexivity | left; reflexivity]].
  destruct (rpc (create_call _ _ _ _ _ _) r) as [[id|e] r1]; cbv beta iota zeta.
  - destruct (rpc (import_call _ _ _ _ id) r1) as [[v|e] r2]; cbv beta iota zeta.
    all: split; [reflexivity|]; right; exists data; split; [reflexivity|].
    all: right; exists id; reflexivity.
  - split; [reflexivity|]. right. exists data. split; [reflexivity|].
    left. reflexivity.
Qed.

(** X9.  A turn of the import loop creates an import record or
    triggers an import only for an [.xml] entry that the blankness
    check found not blank, from which an identifier was extracted, and
    for which the search returned, without fault, a result that counts
    as false. *)
Theorem staging_requires_a_negative_search `{World}
    (d : string) (url db : Opt) (uid : XValue) (pw : Opt) (dbg : bool)
    (n : string) (r : Remote) :
  stages_nothing (trace_of (process_file d url db uid pw dbg n r)) = false ->
  PyStr.endswith n ".xml" = true /\
  result_of (is_blank_camt053 (os_path_join d n) r) = Ok false /\
  exists s v r1,
    result_of (extract_statement_id n (os_path_join d n) r) = Ok (Some s) /\
    rpc (search_call url db uid pw s) r = (Ok v, r1) /\
    truthy v = false.
Proof.
  intros Hstaged.
  destruct (process_file_shape d url db uid pw dbg n r)
    as [[_ [Hcalls _]] | [[s [reply [r1 Hcase]]] | [s [v [r1 Hcase]]]]].
  - unfold stages_nothing in Hstaged. rewrite Hcalls in Hstaged.
    discriminate Hstaged.
  - destruct Hcase as [_ [_ [_ [_ [_ [Hcalls _]]]]]].
    unfold stages_nothing in Hstaged. rewrite Hcalls in Hstaged.
    discriminate Hstaged.
  - destruct Hcase as [Hxml [Hblank [Hext [Hcall [Hv _]]]]].
    split; [exact Hxml|]. split; [exact Hblank|]. now exists s, v, r1.
Qed.

Lemma staging_requires_a_negative_search_witness :
  let w := Fixture.world Fixture.healthy in
  @result_of w _ (@is_blank_camt053 w "/in/one/camt.053_B.xml" Fixture.validated)
  = Ok false /\
  @rpc w (search_call (Some "http://odoo.example.com") (Some "mydb") (XInt 2)
            (Some "secret") "STMT-001") Fixture.validated
  = (Ok (XList []), Fixture.validated).
Proof.
  intros w.
  destruct (@staging_requires_a_negative_search w "/in/one"
              (Some "http://odoo.example.com") (Some "mydb") (XInt 2)
              (Some "secret") false "camt.053_B.xml" Fixture.validated eq_refl)
    as [_ [Hblank _]].
  split; [exact Hblank | reflexivity].
Defined.

(** X10.  An entry whose name does not end in [.xml], a file found
    blank, and a file without a usable identifier are passed over
    without any remote call: the remote system is left as it was. *)
Theorem skipped_file_makes_no_call `{World}
    (d : string) (url db : Opt) (uid : XValue) (pw : Opt) (dbg : bool)
    (n : string) (r : Remote) :
  PyStr.endswith n ".xml" = false \/
  result_of (is_blank_camt053 (os_path_join d n) r) = Ok true \/
  result_of (extract_statement_id n (os_path_join d n) r) = Ok None ->
  rpc_calls (trace_of (process_file d url db uid pw dbg n r)) = [] /\
  remote_of (process_file d url db uid pw dbg n r) = r.
Proof.
  intros Hskip.
  destruct (process_file_shape d url db uid pw dbg n r)
    as [[_ Hquiet] | [[s [reply [r1 Hcase]]] | [s [v [r1 Hcase]]]]];
    [exact Hquiet | |].
  all: destruct Hcase as [Hxml [Hblank [Hext _]]].
  all: destruct Hskip as [Hq | [Hq | Hq]]; congruence.
Qed.

Lemma skipped_file_makes_no_call_witness :
  let w := Fixture.world Fixture.healthy in
  rpc_calls
    (@trace_of w _
       (@process_file w "/in/two" (Some "http://odoo.example.com") (Some "mydb")
          (XInt 2) (Some "secret") true "camt.053_A.xml" Fixture.validated))
  = [].
Proof.
  intros w.
  apply (@skipped_file_makes_no_call w "/in/two"
           (Some "http://odoo.example.com") (Some "mydb") (XInt 2)
           (Some "secret") true "camt.053_A.xml" Fixture.validated).
  right. left. reflexivity.
Defined.

Ltac find_in :=
  lazymatch goal with
  | |- In _ (_ ++ _) =>
      apply in_or_app; first [left; solve [find_in] | right; solve [find_in]]
  | |- In _ (_ :: _) => first [left; reflexivity | right; solve [find_in]]
  end.

(** X11.  When the existence check faults, the file is neither staged
    nor imported: the search is the only remote call of the turn, the
    fault is logged as an error, and the loop goes on. *)
Theorem failed_search_skips_the_file `{World}
    (d : string) (url db : Opt) (uid : XValue) (pw : Opt) (dbg : bool)
    (n s : string) (e : PyExn) (r r1 : Remote) :
  PyStr.endswith n ".xml" = true ->
  result_of (is_blank_camt053 (os_path_join d n) r) = Ok false ->
  result_of (extract_statement_id n (os_path_join d n) r) = Ok (Some s) ->
  rpc (search_call url db uid pw s) r = (Raise e, r1) ->
  let turn := process_file d url db uid pw dbg n r in
  result_of turn = Ok tt /\
  remote_of turn = r1 /\
  rpc_calls (trace_of turn) = [search_call url db uid pw s] /\
  In (EvLog ERROR
        (Msg "Error checking statement existence in Odoo for {stmt_id}: {e}"
             [FStr s; FExn e])) (trace_of turn).
Proof.
  intros Hxml Hblank Hext Hcall.
  destruct (is_blank_local (os_path_join d n) r) as [Hbr Hbc].
  destruct (extract_statement_id_local n (os_path_join d n) r) as [Her Hec].
  cbv beta iota zeta delta [process_file bind debug_log logging ret emit].
  rewrite Hxml. destruct dbg; cbv beta iota zeta delta [negb].
  all: destruct (is_blank_camt053 (os_path_join d n) r) as [[resb rb] tb].
  all: unfold result_of, remote_of, trace_of in Hblank, Hbr, Hbc.
  all: cbn [fst snd] in Hblank, Hbr, Hbc; subst resb rb; cbv beta iota zeta.
  all: destruct (extract_statement_id n (os_path_join d n) r) as [[rese re] te].
  all: unfold result_of, remote_of, trace_of in Hext, Her, Hec.
  all: cbn [fst snd] in Hext, Her, Hec; subst rese re; cbv beta iota zeta.
  all: cbv beta iota zeta delta
         [check_existing try_except bind call logging ret emit is_Exception].
  all: rewrite Hcall; cbv beta iota zeta.
  all: repeat split; calls_done.
  all: unfold trace_of; cbn [snd]; find_in.
Qed.

Lemma failed_search_skips_the_file_witness :
  let w := Fixture.world
             {| Fixture.auth := Ok (XInt 2); Fixture.auth_again := Ok (XInt 2);
                Fixture.search_faults := true; Fixture.create_faults := false;
                Fixture.trigger_faults := false |} in
  rpc_calls
    (@trace_of w _
       (@process_file w "/in/one" (Some "http://odoo.example.com") (Some "mydb")
          (XInt 2) (Some "secret") false "camt.053_B.xml" Fixture.validated))
  = [search_call (Some "http://odoo.example.com") (Some "mydb") (XInt 2)
       (Some "secret") "STMT-001"].
Proof.
  intros w.
  destruct (@failed_search_skips_the_file w "/in/one"
              (Some "http://odoo.example.com") (Some "mydb") (XInt 2)
              (Some "secret") false "camt.053_B.xml" "STMT-001"
              (Fixture.fault "search refused") Fixture.validated Fixture.validated
              eq_refl eq_refl eq_refl eq_refl) as [_ [_ [Hcalls _]]].
  exact Hcalls.
Defined.

(** One turn makes at most three remote calls, at most one of them a
    [create], and triggers an import only after a [create]. *)
Lemma process_file_call_count `{World}
    (d : string) (url db : Opt) (uid : XValue) (pw : Opt) (dbg : bool)
    (n : string) (r : Remote) :
  let calls := rpc_calls (trace_of (process_file d url db uid pw dbg n r)) in
  let k := if PyStr.endswith n ".xml" then 1 else 0 in
  List.length calls <= 3 * k /\
  List.length (filter is_create calls) <= k /\
  List.length (filter is_import_trigger calls)
  <= List.length (filter is_create calls).
Proof.
  cbv zeta.
  destruct (process_file_shape d url db uid pw dbg n r)
    as [[_ [Hcalls _]] | [[s [reply [r1 Hcase]]] | [s [v [r1 Hcase]]]]].
  - rewrite Hcalls. simpl. lia.
  - destruct Hcase as [Hxml [_ [_ [_ [_ [Hcalls _]]]]]].
    rewrite Hcalls, Hxml. simpl. lia.
  - destruct Hcase as [Hxml [_ [_ [_ [_ [Hcalls _]]]]]].
    cbv zeta in Hcalls. rewrite Hcalls, Hxml.
    destruct (upload_shape url db uid pw n (os_path_join d n) r1)
      as [_ [Hup | [data [_ [Hup | [id Hup]]]]]]; rewrite Hup; simpl; lia.
Qed.

Lemma import_loop_call_count `{World}
    (d : string) (url db : Opt) (uid : XValue) (pw : Opt) (dbg : bool)
    (names : list string) (r : Remote) :
  let calls :=
    rpc_calls (trace_of (for_each names (process_file d url db uid pw dbg) r)) in
  let k := List.length (filter (fun n => PyStr.endswith n ".xml") names) in
  List.length calls <= 3 * k /\
  List.length (filter is_create calls) <= k /\
  List.length (filter is_import_trigger calls)
  <= List.length (filter is_create calls).
Proof.
  revert r. induction names as [|x names IH]; intros r.
  - simpl. lia.
  - cbv zeta. rewrite for_each_cons.
    pose proof (process_file_call_count d url db uid pw dbg x r) as Hx.
    cbv zeta in Hx.
    destruct (process_file d url db uid pw dbg x r) as [[[[]|e] r1] t1].
    + specialize (IH r1). cbv zeta in IH.
      destruct (for_each names (process_file d url db uid pw dbg) r1)
        as [[res r2] t2].
      unfold trace_of in *. cbn [fst snd] in *.
      rewrite rpc_calls_app, !filter_app, !length_app. cbn [filter].
      destruct (PyStr.endswith x ".xml"); cbn [List.length]; lia.
    + unfold trace_of in *. cbn [fst snd] in *. cbn [filter].
      destruct (PyStr.endswith x ".xml"); cbn [List.length]; lia.
Qed.

(** X12.  A run of the import workflow over a listed directory makes,
    besides its authentication, at most three remote calls for each
    [.xml] entry and none for the others; it creates at most one import
    record for each [.xml] entry, and triggers no more imports than it
    has created records. *)
Theorem calls_of_a_run_are_bounded `{World}
    (d : string) (url db user pw : Opt) (dbg : bool) (names : list string)
    (r : Remote) :
  os_listdir d = Ok names ->
  let calls := rpc_calls (trace_of (process_directory d url db user pw dbg r)) in
  let k := List.length (filter (fun n => PyStr.endswith n ".xml") names) in
  List.length calls <= 1 + 3 * k /\
  List.length (filter is_create calls) <= k /\
  List.length (filter is_import_trigger calls)
  <= List.length (filter is_create calls).
Proof.
  intros Hls. cbv zeta. rewrite process_directory_unfold. cbv zeta. rewrite Hls.
  destruct (rpc (authenticate_call url db user pw) r) as [[uid|e] r1].
  - pose proof (import_loop_call_count d url db uid pw dbg names r1) as Hloop.
    cbv zeta in Hloop.
    destruct (for_each names (process_file d url db uid pw dbg) r1)
      as [[res r2] t].
    unfold trace_of in *. cbn [fst snd] in *.
    rewrite rpc_calls_app.
    change (EvRpc (authenticate_call url db user pw) (Ok uid) :: EvListdir d :: t)
      with ([EvRpc (authenticate_call url db user pw) (Ok uid); EvListdir d] ++ t)%list.
    rewrite rpc_calls_app, !filter_app, !length_app.
    destruct dbg; simpl; lia.
  - unfold trace_of. cbn [fst snd]. rewrite rpc_calls_app.
    destruct dbg; simpl; lia.
Qed.

Lemma calls_of_a_run_are_bounded_witness :
  let w := Fixture.world Fixture.healthy in
  List.length
    (rpc_calls
       (@trace_of w _
          (@process_directory w "/in/mix" (Some "http://odoo.example.com")
             (Some "mydb") (Some "admin") (Some "secret") false Fixture.empty)))
  <= 10.
Proof.
  intros w.
  destruct (@calls_of_a_run_are_bounded w "/in/mix"
              (Some "http://odoo.example.com") (Some "mydb") (Some "admin")
              (Some "secret") false
              ["notes.txt"; "broken.xml"; "camt.053_A.xml"; "camt.053_B.xml"]
              Fixture.empty eq_refl) as [Hcalls _].
  exact Hcalls.
Defined.

(** ** An option that changes nothing but the log *)

Lemma above_debug_app (a b : list Event) :
  above_debug (a ++ b) = (above_debug a ++ above_debug b)%list.
Proof. apply filter_app. Qed.

Lemma process_file_debug `{World}
    (d : string) (url db : Opt) (uid : XValue) (pw : Opt) (n : string)
    (r : Remote) :
  let loud := process_file d url db uid pw true n r in
  let quiet := process_file d url db uid pw false n r in
  result_of loud = result_of quiet /\
  remote_of loud = remote_of quiet /\
  above_debug (trace_of loud) = above_debug (trace_of quiet).
Proof.
  unfold_script. world_cases. all: repeat split.
Qed.

Lemma import_loop_debug `{World}
    (d : string) (url db : Opt) (uid : XValue) (pw : Opt)
    (names : list string) (r : Remote) :
  let loud := for_each names (process_file d url db uid pw true) r in
  let quiet := for_each names (process_file d url db uid pw false) r in
  result_of loud = result_of quiet /\
  remote_of loud = remote_of quiet /\
  above_debug (trace_of loud) = above_debug (trace_of quiet).
Proof.
  revert r. induction names as [|x names IH]; intros r; [repeat split|].
  cbv zeta. rewrite !for_each_cons.
  destruct (process_file_debug d url db uid pw x r) as [Hres [Hrem Htr]].
  destruct (process_file d url db uid pw true x r) as [[res1 r1] t1].
  destruct (process_file d url db uid pw false x r) as [[res2 r2] t2].
  unfold result_of, remote_of, trace_of in Hres, Hrem, Htr.
  cbn [fst snd] in Hres, Hrem, Htr. subst res2 r2.
  destruct res1 as [[]|e]; [|repeat split; exact Htr].
  specialize (IH r1). cbv zeta in IH. destruct IH as [IHres [IHrem IHtr]].
  destruct (for_each names (process_file d url db uid pw true) r1)
    as [[res3 r3] t3].
  destruct (for_each names (process_file d url db uid pw false) r1)
    as [[res4 r4] t4].
  unfold result_of, remote_of, trace_of in *. cbn [fst snd] in *.
  repeat split; try assumption.
  now rewrite !above_debug_app, Htr, IHtr.
Qed.

(** X13.  The [debug] argument of the import workflow changes what is
    logged at level DEBUG and nothing else: the outcome, the state the
    remote system is left in, and every event that is no DEBUG record
    (remote calls, file accesses, records of level INFO and ERROR) are
    the same with and without it. *)
Theorem debug_only_adds_debug_records `{World}
    (d : string) (url db user pw : Opt) (r : Remote) :
  let loud := process_directory d url db user pw true r in
  let quiet := process_directory d url db user pw false r in
  result_of loud = result_of quiet /\
  remote_of loud = remote_of quiet /\
  above_debug (trace_of loud) = above_debug (trace_of quiet).
Proof.
  cbv zeta. rewrite !process_directory_unfold. cbv zeta.
  destruct (rpc (authenticate_call url db user pw) r) as [[uid|e] r1];
    [|repeat split].
  destruct (os_listdir d) as [names|e]; [|repeat split].
  destruct (import_loop_debug d url db uid pw names r1) as [Hres [Hrem Htr]].
  destruct (for_each names (process_file d url db uid pw true) r1)
    as [[res1 r2] t1].
  destruct (for_each names (process_file d url db uid pw false) r1)
    as [[res2 r3] t2].
  unfold result_of, remote_of, trace_of in *. cbn [fst snd] in *.
  repeat split; try assumption.
  cbn [app above_debug filter is_debug_log negb].
  fold (above_debug t1). fold (above_debug t2). now rewrite Htr.
Qed.

(** ** What the upload reports *)

(** X14.  The upload never raises.  It logs success exactly when the
    file was read and both remote calls returned; in every other case
    it logs the error.  When the file cannot be read, nothing is sent
    to the remote system. *)
Theorem upload_outcome `{World}
    (url db : Opt) (uid : XValue) (pw : Opt) (n p : string) (r : Remote) :
  let upload := upload_and_import url db uid pw n p r in
  let success :=
    EvLog INFO (Msg "Successfully uploaded file: {file_name} to Odoo." [FStr n]) in
  result_of upload = Ok tt /\
  (In success (trace_of upload) <->
   exists data id r1 v r2,
     read_binary p = Ok data /\
     rpc (create_call url db uid pw n (Base64.b64encode data)) r = (Ok id, r1) /\
     rpc (import_call url db uid pw id) r1 = (Ok v, r2)) /\
  (~ In success (trace_of upload) ->
   exists e, In (EvLog ERROR (Msg "Error uploading file {file_name} to Odoo: {e}"
                                  [FStr n; FExn e])) (trace_of upload)) /\
  (forall e, read_binary p = Raise e ->
             rpc_calls (trace_of upload) = [] /\ remote_of upload = r).
Proof.
  unfold_script.
  destruct (read_binary p) as [data|e0] eqn:Hread; cbv beta iota zeta.
  - destruct (rpc (create_call url db uid pw n (Base64.b64encode data)) r)
      as [[id|e0] r1] eqn:Hcreate; cbv beta iota zeta.
    + destruct (rpc (import_call url db uid pw id) r1) as [[v|e0] r2] eqn:Htrig;
        cbv beta iota zeta.
      * split; [reflexivity|]. split; [|split].
        -- split; [|intros _; find_in].
           intros _. exists data, id, r1, v, r2. auto.
        -- intros Hno. exfalso. apply Hno. find_in.
        -- intros e He. discriminate He.
      * split; [reflexivity|]. split; [|split].
        -- split.
           ++ cbn [app In]. intros [Hq|[Hq|[Hq|[Hq|[]]]]]; discriminate Hq.
           ++ intros [data' [id' [r1' [v' [r2' [Hd [Hc Ht]]]]]]].
              injection Hd as <-. rewrite Hcreate in Hc. injection Hc as <- <-.
              rewrite Htrig in Ht. discriminate Ht.
        -- intros _. exists e0. find_in.
        -- intros e He. discriminate He.
    + split; [reflexivity|]. split; [|split].
      * split.
        -- cbn [app In]. intros [Hq|[Hq|[Hq|[]]]]; discriminate Hq.
        -- intros [data' [id' [r1' [v' [r2' [Hd [Hc Ht]]]]]]].
           injection Hd as <-. rewrite Hcreate in Hc. discriminate Hc.
      * intros _. exists e0. find_in.
      * intros e He. discriminate He.
  - split; [reflexivity|]. split; [|split].
    + split.
      * cbn [app In]. intros [Hq|[Hq|[]]]; discriminate Hq.
      * intros [data' [id' [r1' [v' [r2' [Hd _]]]]]]. discriminate Hd.
    + intros _. exists e0. find_in.
    + intros e _. split; reflexivity.
Qed.

(** ** The payload of an upload *)

Unset Implicit Arguments.

Lemma digit_below_64 (i : N) :
  (i < 64)%N ->
  Base64Inverse.value (Base64.digit i) = Some i /\
  Base64Inverse.is_pad (Base64.digit i) = false.
Proof.
  intros Hi.
  assert (Hall : forallb (fun k =>
             match Base64Inverse.value (Base64.digit (N.of_nat k)) with
             | Some j => N.eqb j (N.of_nat k)
             | None => false
             end && negb (Base64Inverse.is_pad (Base64.digit (N.of_nat k))))
            (seq 0 64) = true) by (vm_compute; reflexivity).
  rewrite forallb_forall in Hall.
  specialize (Hall (N.to_nat i)).
  rewrite N2Nat.id in Hall.
  assert (Hin : In (N.to_nat i) (seq 0 64)) by (apply in_seq; lia).
  specialize (Hall Hin). apply andb_true_iff in Hall as [Hv Hp].
  destruct (Base64Inverse.value (Base64.digit i)) as [j|]; [|discriminate].
  apply N.eqb_eq in Hv. subst j. split; [reflexivity|].
  now apply negb_true_iff.
Qed.

Lemma digit_mod (x : N) : Base64.digit x = Base64.digit (x mod 64).
Proof.
  unfold Base64.digit. change 63%N with (N.ones 6).
  rewrite !N.land_ones. change (2 ^ 6)%N with 64%N.
  now rewrite N.Div0.mod_mod.
Qed.

Lemma lor_shiftl_low (k c m : N) :
  (c < 2 ^ m)%N -> N.lor (N.shiftl k m) c = (N.shiftl k m + c)%N.
Proof.
  intros Hc.
  assert (Hland : N.land (N.shiftl k m) c = 0%N).
  { apply N.bits_inj. intros i. rewrite N.land_spec, N.bits_0.
    destruct (N.lt_ge_cases i m) as [Him|Him].
    - now rewrite N.shiftl_spec_low.
    - destruct (N.eq_dec c 0) as [->|Hc0]; [now rewrite N.bits_0, andb_false_r|].
      rewrite (N.bits_above_log2 c i), andb_false_r; [reflexivity|].
      apply N.lt_le_trans with m; [|exact Him].
      apply N.log2_lt_pow2; lia. }
  rewrite <- N.lxor_lor by exact Hland.
  symmetry. now apply N.add_nocarry_lxor.
Qed.

Lemma byte_bound (a : byte) : (Byte.to_N a < 256)%N.
Proof. pose proof (Byte.to_N_bounded a). lia. Qed.

Lemma value_digit (x : N) :
  Base64Inverse.value (Base64.digit x) = Some (x mod 64)%N /\
  Base64Inverse.is_pad (Base64.digit x) = false.
Proof.
  rewrite digit_mod. apply digit_below_64. apply N.mod_lt. discriminate.
Qed.

Lemma group24 (a b c : N) :
  (b < 256)%N -> (c < 256)%N ->
  N.lor (N.lor (N.shiftl a 16) (N.shiftl b 8)) c = (65536 * a + 256 * b + c)%N.
Proof.
  intros Hb Hc.
  change 16%N with (8 + 8)%N. rewrite <- N.shiftl_shiftl, <- N.shiftl_lor.
  rewrite (lor_shiftl_low a b 8) by exact Hb.
  rewrite lor_shiftl_low by exact Hc.
  rewrite !N.shiftl_mul_pow2. change (2 ^ 8)%N with 256%N. lia.
Qed.

Ltac divmod := zify; Z.to_euclidean_division_equations; lia.

Lemma byte_of_to_N (a : byte) (n : N) :
  (n mod 256 = Byte.to_N a)%N -> Base64Inverse.byte_of n = Some a.
Proof. unfold Base64Inverse.byte_of. intros ->. apply Byte.of_to_N. Qed.

Lemma list_ind3 (A : Type) (P : list A -> Prop) :
  P [] -> (forall a, P [a]) -> (forall a b, P [a; b]) ->
  (forall a b c l, P l -> P (a :: b :: c :: l)) ->
  forall l, P l.
Proof.
  intros H0 H1 H2 H3. fix IH 1.
  intros [|a [|b [|c l]]]; [exact H0 | apply H1 | apply H2 | apply H3; apply IH].
Qed.

Lemma b64decode_b64encode (bs : list byte) :
  Base64Inverse.b64decode (Base64.b64encode bs) = Some bs.
Proof.
  induction bs as [|a|a b|a b c l IH] using list_ind3.
  - reflexivity.
  - cbn [Base64.b64encode].
    pose proof (byte_bound a) as Ha.
    rewrite !N.shiftr_div_pow2, N.shiftl_mul_pow2.
    cbn [Base64Inverse.b64decode].
    destruct (value_digit (Byte.to_N a * 2 ^ 16 / 2 ^ 18)) as [-> _].
    destruct (value_digit (Byte.to_N a * 2 ^ 16 / 2 ^ 12)) as [-> _].
    cbn [Base64Inverse.is_pad]. change (Ascii.eqb "=" "=") with true.
    cbv beta iota.
    rewrite (byte_of_to_N a); [reflexivity|].
    change (2 ^ 16)%N with 65536%N. change (2 ^ 18)%N with 262144%N.
    change (2 ^ 12)%N with 4096%N. divmod.
  - cbn [Base64.b64encode].
    pose proof (byte_bound a) as Ha. pose proof (byte_bound b) as Hb.
    assert (Hn : N.lor (N.shiftl (Byte.to_N a) 16) (N.shiftl (Byte.to_N b) 8)
                 = (65536 * Byte.to_N a + 256 * Byte.to_N b)%N).
    { rewrite <- (N.lor_0_r (N.lor _ _)).
      rewrite group24 by lia. lia. }
    rewrite Hn. rewrite !N.shiftr_div_pow2.
    cbn [Base64Inverse.b64decode].
    destruct (value_digit ((65536 * Byte.to_N a + 256 * Byte.to_N b) / 2 ^ 18))
      as [-> _].
    destruct (value_digit ((65536 * Byte.to_N a + 256 * Byte.to_N b) / 2 ^ 12))
      as [-> _].
    destruct (value_digit ((65536 * Byte.to_N a + 256 * Byte.to_N b) / 2 ^ 6))
      as [-> ->].
    change (Base64Inverse.is_pad "=") with true. cbv beta iota.
    change (2 ^ 18)%N with 262144%N. change (2 ^ 12)%N with 4096%N.
    change (2 ^ 6)%N with 64%N.
    rewrite (byte_of_to_N a) by divmod.
    rewrite (byte_of_to_N b) by divmod.
    reflexivity.
  - cbn [Base64.b64encode].
    pose proof (byte_bound a) as Ha. pose proof (byte_bound b) as Hb.
    pose proof (byte_bound c) as Hc.
    rewrite group24 by assumption.
    rewrite !N.shiftr_div_pow2.
    cbn [Base64Inverse.b64decode].
    set (n := (65536 * Byte.to_N a + 256 * Byte.to_N b + Byte.to_N c)%N).
    destruct (value_digit (n / 2 ^ 18)) as [-> _].
    destruct (value_digit (n / 2 ^ 12)) as [-> _].
    destruct (value_digit (n / 2 ^ 6)) as [-> ->].
    destruct (value_digit n) as [-> ->].
    cbv beta iota. rewrite IH.
    change (2 ^ 18)%N with 262144%N. change (2 ^ 12)%N with 4096%N.
    change (2 ^ 6)%N with 64%N. subst n.
    rewrite (byte_of_to_N a) by divmod.
    rewrite (byte_of_to_N b) by divmod.
    rewrite (byte_of_to_N c) by divmod.
    reflexivity.
Qed.

Lemma b64encode_length (bs : list byte) :
  String.length (Base64.b64encode bs) = 4 * ((List.length bs + 2) / 3).
Proof.
  induction bs as [|a|a b|a b c l IH] using list_ind3; try reflexivity.
  cbn [Base64.b64encode String.length List.length]. rewrite IH.
  replace (S (S (S (List.length l))) + 2) with (1 * 3 + (List.length l + 2))
    by lia.
  rewrite Nat.div_add_l by discriminate. lia.
Qed.

(** X15.  The base64 text that is uploaded determines the bytes of the
    file: decoding it gives the bytes back, so two files with different
    content never give the same payload.  The text has four characters
    for every three bytes, the last group being padded. *)
Theorem payload_determines_the_file (bs : list byte) :
  Base64Inverse.b64decode (Base64.b64encode bs) = Some bs /\
  (forall bs', Base64.b64encode bs' = Base64.b64encode bs -> bs' = bs) /\
  String.length (Base64.b64encode bs) = 4 * ((List.length bs + 2) / 3).
Proof.
  split; [apply b64decode_b64encode|]. split; [|apply b64encode_length].
  intros bs' Heq.
  pose proof (b64decode_b64encode bs') as Hdec. rewrite Heq in Hdec.
  rewrite b64decode_b64encode in Hdec. now injection Hdec.
Qed.

Set Implicit Arguments.

(** ** The standard output *)

(** X16.  The import workflow writes nothing to the standard output:
    what happens to the files is only logged.  (The lines printed in
    an import run are those of the connection validation.) *)
Theorem import_workflow_never_prints `{World}
    (d : string) (url db user pw : Opt) (dbg : bool) (r : Remote) :
  printed (trace_of (process_directory d url db user pw dbg r)) = [].
Proof.
  rewrite process_directory_unfold. cbv zeta.
  destruct (rpc (authenticate_call url db user pw) r) as [[uid|e] r1];
    [|destruct dbg; reflexivity].
  destruct (os_listdir d) as [names|e]; [|destruct dbg; reflexivity].
  assert (Hloop : printed
                    (trace_of (for_each names (process_file d url db uid pw dbg) r1))
                  = []).
  { apply (for_each_trace (fun t => printed t = [])); [reflexivity | |].
    - intros a b Ha Hb. now rewrite printed_app, Ha, Hb.
    - intros x r' _. unfold_script. world_cases. all: reflexivity. }
  destruct (for_each names (process_file d url db uid pw dbg) r1)
    as [[res r2] t].
  unfold trace_of in *. cbn [fst snd] in *.
  rewrite printed_app. cbn [printed flat_map app]. fold (printed t).
  rewrite Hloop. destruct dbg; reflexivity.
Qed.
